(** * latest-successful-job-run: commit resolution over a workflow-run history

    A shallow embedding of the two realizations found in the repository:
    - [TS]: src/index.ts  (getCurrentBranchName, handleWorkflowRunSha,
      handleJobSha, getSha);
    - [Go]: main.go       (getCurrentBranchName,
      getLastSuccessfulWorkflowRunCommit).

    Provider calls are modelled in a small monad that threads the log of the
    calls made so far and may raise; console.info / log.Printf lines have no
    influence on results and are left out. *)

From Stdlib Require Import String Ascii List ZArith Bool Lia Permutation.
Import ListNotations.
Open Scope string_scope.
Open Scope list_scope.

(** ** Data returned by the run-history provider *)

Module HeadCommit.
Record t := { id : string }.
End HeadCommit.

Module WorkflowRun.
Record t := {
  id : Z;
  head_sha : string;
  head_branch : string;
  status : string;
  conclusion : option string;
  head_commit : option HeadCommit.t
}.
End WorkflowRun.

Module Job.
Record t := {
  name : string;
  status : string;
  conclusion : option string
}.
End Job.

(** Parameters of a run-list request; [None] is a parameter left out. *)
Module RunsQuery.
Record t := {
  owner : string;
  repo : string;
  branch : option string;
  status : option string;
  page : option nat;
  per_page : option nat
}.
End RunsQuery.

Inductive Call :=
| ListWorkflowRuns (q : RunsQuery.t)
| ListJobs (owner repo : string) (run_id : Z).

Inductive response (A : Type) :=
| Data (a : A)
| Failure (e : string).
Arguments Data {A} a.
Arguments Failure {A} e.

(** The client object ([octokit] / [*github.Client]): one function per
    endpoint the programs use. *)
Record Provider := {
  listWorkflowRuns : RunsQuery.t -> response (list WorkflowRun.t);
  listJobs : string -> string -> Z -> response (list Job.t)
}.

Definition fails (p : Provider) (c : Call) : bool :=
  match c with
  | ListWorkflowRuns q =>
      match listWorkflowRuns p q with Failure _ => true | Data _ => false end
  | ListJobs o r i =>
      match listJobs p o r i with Failure _ => true | Data _ => false end
  end.

(** ** The effect monad: a call log and an exception *)

Inductive outcome (E A : Type) :=
| Ok (a : A)
| Raised (e : E).
Arguments Ok {E A} a.
Arguments Raised {E A} e.

Definition M (E A : Type) : Type := list Call -> outcome E A * list Call.

Definition ret {E A} (a : A) : M E A := fun log => (Ok a, log).

Definition raise {E A} (e : E) : M E A := fun log => (Raised e, log).

Definition bind {E A B} (m : M E A) (k : A -> M E B) : M E B :=
  fun log =>
    match m log with
    | (Ok a, log') => k a log'
    | (Raised e, log') => (Raised e, log')
    end.

Definition lift {E A} (o : outcome E A) : M E A := fun log => (o, log).

Notation "x <- m ;; k" := (bind m (fun x => k))
  (at level 61, m at next level, right associativity).

(** A request: the call is appended to the log; a failure is turned into
    the caller's exception by [wrap]. *)
Definition request {E A} (c : Call) (r : response A) (wrap : string -> E)
  : M E A :=
  fun log =>
    match r with
    | Data a => (Ok a, log ++ [c])
    | Failure e => (Raised (wrap e), log ++ [c])
    end.

Definition run {E A} (m : M E A) : outcome E A * list Call := m [].

(** ** Process environment and string splitting *)

Definition Env := string -> option string.

(** [s.split(sep)] / [strings.Split(s, sep)] for a one-character
    separator: the empty string yields one empty segment. *)
Fixpoint split (s : string) (sep : ascii) : list string :=
  match s with
  | EmptyString => [EmptyString]
  | String c rest =>
      if Ascii.eqb c sep then EmptyString :: split rest sep
      else match split rest sep with
           | seg :: segs => String c seg :: segs
           | [] => [String c EmptyString]
           end
  end.

Definition slash : ascii := "/"%char.

(** The job test shared by both realizations:
    name, status [completed], conclusion [success]. *)
Definition conclusion_is (c : option string) (v : string) : bool :=
  match c with
  | Some s => String.eqb s v
  | None => false
  end.

(** ** The TypeScript realization (src/index.ts) *)

Module TS.

Inductive JsError := Error (message : string).

Definition ghEnv (env : Env) (key : string) : option string := env key.

(** JavaScript [!v] for [v : string | undefined]. *)
Definition not_ (v : option string) : bool :=
  match v with
  | None => true
  | Some s => String.eqb s ""
  end.

Definition strict_eq (v : option string) (s : string) : bool :=
  match v with
  | Some x => String.eqb x s
  | None => false
  end.

Definition getCurrentBranchName (env : Env) : outcome JsError string :=
  if strict_eq (ghEnv env "GITHUB_EVENT_NAME") "pull_request" then
    let headRef := ghEnv env "GITHUB_HEAD_REF" in
    match headRef with
    | Some h =>
        if not_ headRef
        then Raised (Error "Could not get branch name from GITHUB_HEAD_REF")
        else Ok h
    | None => Raised (Error "Could not get branch name from GITHUB_HEAD_REF")
    end
  else
    let ref :=
      match ghEnv env "GITHUB_REF" with
      | Some r => nth_error (split r slash) 2
      | None => None
      end in
    match ref with
    | Some b =>
        if not_ ref
        then Raised (Error "Could not get branch name from GITHUB_REF")
        else Ok b
    | None => Raised (Error "Could not get branch name from GITHUB_REF")
    end.

Definition handleWorkflowRunSha (octokit : Provider)
    (owner repo currentBranchName : string) : M JsError string :=
  let q := {| RunsQuery.owner := owner;
              RunsQuery.repo := repo;
              RunsQuery.status := Some "success";
              RunsQuery.branch := Some currentBranchName;
              RunsQuery.page := Some 1;
              RunsQuery.per_page := Some 1 |} in
  workflow_runs <-
    request (ListWorkflowRuns q) (listWorkflowRuns octokit q)
      (fun e => Error ("Error getting workflow runs: " ++ e)) ;;
  match workflow_runs with
  | [] => ret ""
  | first :: _ => ret (WorkflowRun.head_sha first)
  end.

Definition job_succeeded (jobName : string) (job : Job.t) : bool :=
  String.eqb (Job.name job) jobName
  && String.eqb (Job.status job) "completed"
  && conclusion_is (Job.conclusion job) "success".

(** The inner [for (const job of ...)]: [Some sha] is the early
    [return thisRunCommitHash]. *)
Fixpoint scan_jobs (jobName thisRunCommitHash : string)
    (jobs : list Job.t) : option string :=
  match jobs with
  | [] => None
  | job :: rest =>
      if job_succeeded jobName job then Some thisRunCommitHash
      else scan_jobs jobName thisRunCommitHash rest
  end.

(** The outer [for (const workflowRun of ...)]; [None] means the loop
    ran to its end. *)
Fixpoint scan_runs (octokit : Provider) (owner repo jobName : string)
    (runs : list WorkflowRun.t) : M JsError (option string) :=
  match runs with
  | [] => ret None
  | workflowRun :: rest =>
      jobs <-
        request (ListJobs owner repo (WorkflowRun.id workflowRun))
          (listJobs octokit owner repo (WorkflowRun.id workflowRun))
          (fun e => Error ("Error getting workflow run jobs: " ++ e)) ;;
      let thisRunCommitHash := WorkflowRun.head_sha workflowRun in
      match scan_jobs jobName thisRunCommitHash jobs with
      | Some sha => ret (Some sha)
      | None => scan_runs octokit owner repo jobName rest
      end
  end.

Definition jobs_query (owner repo currentBranchName : string)
  : RunsQuery.t :=
  {| RunsQuery.owner := owner;
     RunsQuery.repo := repo;
     RunsQuery.branch := Some currentBranchName;
     RunsQuery.status := None;
     RunsQuery.page := None;
     RunsQuery.per_page := None |}.

Definition handleJobSha (octokit : Provider)
    (owner repo currentBranchName jobName : string) : M JsError string :=
  let q := jobs_query owner repo currentBranchName in
  previousCompletedWorkflowRuns <-
    request (ListWorkflowRuns q) (listWorkflowRuns octokit q)
      (fun e => Error ("Error getting workflow runs: " ++ e)) ;;
  found <- scan_runs octokit owner repo jobName
             previousCompletedWorkflowRuns ;;
  match found with
  | Some sha => ret sha
  | None => ret ""
  end.

(** [getSha]; the toolkit's [core.getInput], [github.getOctokit] and
    [github.context.repo] are taken as given. *)
Section GetSha.
Variable getInput : string -> bool -> outcome JsError string.
Variable getOctokit : string -> Provider.
Variable context_repo : string * string.
Variable env : Env.

Definition getSha : M JsError string :=
  jobName <- lift (getInput "job" false) ;;
  let useLatestSuccessfulWorkflowRun := String.eqb jobName "" in
  token <- lift (getInput "token" true) ;;
  let octokit := getOctokit token in
  let '(owner, repo) := context_repo in
  currentBranchName <- lift (getCurrentBranchName env) ;;
  if useLatestSuccessfulWorkflowRun
  then handleWorkflowRunSha octokit owner repo currentBranchName
  else handleJobSha octokit owner repo currentBranchName jobName.
End GetSha.

(** [main]: the resolved hash is handed to the toolkit's
    [core.setOutput], recorded here as a key/value pair; when [getSha]
    rejects, the rejection leaves [main] before any output is set. *)
Definition main (getInput : string -> bool -> outcome JsError string)
    (getOctokit : string -> Provider) (context_repo : string * string)
    (env : Env)
  : outcome JsError unit * list Call * list (string * string) :=
  match run (getSha getInput getOctokit context_repo env) with
  | (Ok sha, log) => (Ok tt, log, [("sha", sha)])
  | (Raised e, log) => (Raised e, log, [])
  end.

End TS.

(** ** The Go realization (main.go) *)

Module Go.

Inductive Panic :=
| PanicErr (err : string)
| IndexOutOfRange (index length : nat).

Definition githubEventName := "GITHUB_EVENT_NAME".
Definition githubRef := "GITHUB_REF".
Definition githubHeadRef := "GITHUB_HEAD_REF".
Definition githubRepository := "GITHUB_REPOSITORY".

(** [os.Getenv]: an unset variable reads as the empty string. *)
Definition Getenv (env : Env) (key : string) : string :=
  match env key with
  | Some v => v
  | None => ""
  end.

Definition getCurrentBranchName (env : Env) : string :=
  if String.eqb (Getenv env githubEventName) "pull_request"
  then Getenv env githubHeadRef
  else Getenv env githubRef.

(** Nil-safe getters of go-github. *)
Definition GetConclusion (j : Job.t) : string :=
  match Job.conclusion j with
  | Some c => c
  | None => ""
  end.

Definition GetID (c : option HeadCommit.t) : string :=
  match c with
  | Some h => HeadCommit.id h
  | None => ""
  end.

Definition GetHeadCommit (r : WorkflowRun.t) : option HeadCommit.t :=
  WorkflowRun.head_commit r.

(** [s[i]] on a slice. *)
Definition index {A} (l : list A) (i : nat) : outcome Panic A :=
  match nth_error l i with
  | Some a => Ok a
  | None => Raised (IndexOutOfRange i (length l))
  end.

Definition job_succeeded (jobName : string) (workflowRunJob : Job.t)
  : bool :=
  String.eqb (Job.name workflowRunJob) jobName
  && String.eqb (Job.status workflowRunJob) "completed"
  && String.eqb (GetConclusion workflowRunJob) "success".

Fixpoint scan_jobs (jobName : string) (workflowRun : WorkflowRun.t)
    (jobs : list Job.t) : option string :=
  match jobs with
  | [] => None
  | workflowRunJob :: rest =>
      if job_succeeded jobName workflowRunJob
      then Some (GetID (GetHeadCommit workflowRun))
      else scan_jobs jobName workflowRun rest
  end.

Fixpoint scan_runs (client : Provider) (owner repo jobName : string)
    (runs : list WorkflowRun.t) : M Panic (option string) :=
  match runs with
  | [] => ret None
  | workflowRun :: rest =>
      if String.eqb (WorkflowRun.status workflowRun) "completed" then
        workflowRunJobs <-
          request (ListJobs owner repo (WorkflowRun.id workflowRun))
            (listJobs client owner repo (WorkflowRun.id workflowRun))
            PanicErr ;;
        match scan_jobs jobName workflowRun workflowRunJobs with
        | Some jobId => ret (Some jobId)
        | None => scan_runs client owner repo jobName rest
        end
      else scan_runs client owner repo jobName rest
  end.

(** [ListRepositoryWorkflowRuns(ctx, owner, repo, nil)]: no option set. *)
Definition runs_query (owner repo : string) : RunsQuery.t :=
  {| RunsQuery.owner := owner;
     RunsQuery.repo := repo;
     RunsQuery.branch := None;
     RunsQuery.status := None;
     RunsQuery.page := None;
     RunsQuery.per_page := None |}.

Definition getLastSuccessfulWorkflowRunCommit (env : Env)
    (client : Provider) (jobName : string) : M Panic string :=
  let owner_repo := split (Getenv env githubRepository) slash in
  owner <- lift (index owner_repo 0) ;;
  repo <- lift (index owner_repo 1) ;;
  let q := runs_query owner repo in
  previousWorkflowRuns <-
    request (ListWorkflowRuns q) (listWorkflowRuns client q) PanicErr ;;
  found <- scan_runs client owner repo jobName previousWorkflowRuns ;;
  match found with
  | Some jobId => ret jobId
  | None =>
      newest <- lift (index previousWorkflowRuns 0) ;;
      ret (GetID (GetHeadCommit newest))
  end.

Definition githubOutput := "GITHUB_OUTPUT".

(** [strings.ReplaceAll(s, old, new)] for one-character [old] and [new]. *)
Fixpoint ReplaceAll (s : string) (old new : ascii) : string :=
  match s with
  | EmptyString => EmptyString
  | String c rest =>
      String (if Ascii.eqb c old then new else c) (ReplaceAll rest old new)
  end.

(** [getInput]; [strings.ToUpper] and [strings.TrimSpace] are taken as
    given.  The panic value is the message. *)
Section Inputs.
Variable ToUpper : string -> string.
Variable TrimSpace : string -> string.

Definition input_key (inputName : string) : string :=
  ("INPUT_" ++ ReplaceAll (ToUpper inputName) " "%char "_"%char)%string.

Definition getInput (env : Env) (inputName : string) (required : bool)
  : outcome string string :=
  let input := Getenv env (input_key inputName) in
  if required && String.eqb (TrimSpace input) ""
  then Raised ("Input required and not supplied: " ++ inputName)%string
  else Ok input.
End Inputs.

(** The files of the machine, by path. *)
Definition Files := string -> option string.

Definition contents (fs : Files) (path : string) : string :=
  match fs path with
  | Some c => c
  | None => ""
  end.

Definition write_file (fs : Files) (path content : string) : Files :=
  fun p => if String.eqb p path then Some content else fs p.

(** The operating system decides whether [os.OpenFile] (append, create,
    write-only) and [f.WriteString] succeed; [Some err] is the error. *)
Record OS := {
  open_error : string -> option string;
  write_error : string -> string -> option string
}.

Definition newline : string := String "010"%char EmptyString.

(** [setOutput]: the panic value is the error.  An opened file exists
    from then on, also when the write fails. *)
Definition setOutput (os : OS) (env : Env) (outputName value : string)
    (fs : Files) : outcome string unit * Files :=
  let output := Getenv env githubOutput in
  match open_error os output with
  | Some err => (Raised err, fs)
  | None =>
      let line := (outputName ++ "=" ++ value ++ newline)%string in
      match write_error os output line with
      | Some err => (Raised err, write_file fs output (contents fs output))
      | None =>
          (Ok tt, write_file fs output (contents fs output ++ line)%string)
      end
  end.

(** What a run of [main] can die of. *)
Inductive Crash :=
| InputPanic (message : string)
| ResolverPanic (p : Panic)
| OutputPanic (err : string).

(** [main] with [setOutput]: both inputs are required, the hash is
    resolved and written as output [sha]. *)
Definition main (ToUpper TrimSpace : string -> string) (os : OS)
    (env : Env) (ghClient : Provider) (fs : Files)
  : outcome Crash unit * list Call * Files :=
  match getInput ToUpper TrimSpace env "paths" true with
  | Raised message => (Raised (InputPanic message), [], fs)
  | Ok input =>
      match getInput ToUpper TrimSpace env "job" true with
      | Raised message => (Raised (InputPanic message), [], fs)
      | Ok job =>
          match run (getLastSuccessfulWorkflowRunCommit env ghClient job)
          with
          | (Raised p, log) => (Raised (ResolverPanic p), log, fs)
          | (Ok sha, log) =>
              match setOutput os env "sha" sha fs with
              | (Raised err, fs') => (Raised (OutputPanic err), log, fs')
              | (Ok _, fs') => (Ok tt, log, fs')
              end
          end
      end
  end.

End Go.

(** ** The run-history provider over a repository history *)

(** Modelled from the spec: the Run History Provider is an external
    collaborator (sections 2 and 6): a paginated source of the
    repository's workflow runs, newest first, filterable by branch and by
    status, and of the jobs of a run.  [history] lists the runs of every
    branch, newest first; a status filter selects a run by its status or
    by its conclusion ("success" is a conclusion); a request without
    [per_page] gets the provider's default page size. *)
Module History.
Section Provider.
Variable default_per_page : nat.
Variable history : list WorkflowRun.t.
Variable jobs_of : Z -> list Job.t.

Definition on_branch (b : option string) (r : WorkflowRun.t) : bool :=
  match b with
  | Some n => String.eqb (WorkflowRun.head_branch r) n
  | None => true
  end.

Definition has_status (s : option string) (r : WorkflowRun.t) : bool :=
  match s with
  | Some v =>
      String.eqb (WorkflowRun.status r) v
      || conclusion_is (WorkflowRun.conclusion r) v
  | None => true
  end.

Definition selected (q : RunsQuery.t) (r : WorkflowRun.t) : bool :=
  on_branch (RunsQuery.branch q) r && has_status (RunsQuery.status q) r.

Definition page_of (q : RunsQuery.t) (l : list WorkflowRun.t)
  : list WorkflowRun.t :=
  let n := match RunsQuery.per_page q with
           | Some n => n
           | None => default_per_page
           end in
  let p := match RunsQuery.page q with
           | Some p => p
           | None => 1
           end in
  firstn n (skipn ((p - 1) * n) l).

Definition provider : Provider :=
  {| listWorkflowRuns q := Data (page_of q (filter (selected q) history));
     listJobs _ _ i := Data (jobs_of i) |}.
End Provider.
End History.

(** ** Specification-level vocabulary *)

(** A job record meets the success condition for [jobName]. *)
Definition is_success (jobName : string) (j : Job.t) : Prop :=
  Job.name j = jobName
  /\ Job.status j = "completed"
  /\ Job.conclusion j = Some "success".

(** The newest-first list of job requests for a list of runs. *)
Definition job_calls (owner repo : string) (runs : list WorkflowRun.t)
  : list Call :=
  map (fun r => ListJobs owner repo (WorkflowRun.id r)) runs.

Definition completed (r : WorkflowRun.t) : bool :=
  String.eqb (WorkflowRun.status r) "completed".

(** Two job-list responses agree up to the order of the job records. *)
Definition same_jobs (a b : response (list Job.t)) : Prop :=
  match a, b with
  | Data l, Data l' => Permutation l l'
  | Failure e, Failure e' => e = e'
  | _, _ => False
  end.

(** [c] occurs in [s]. *)
Fixpoint has_char (c : ascii) (s : string) : bool :=
  match s with
  | EmptyString => false
  | String x rest => Ascii.eqb c x || has_char c rest
  end.

Definition slash_free (s : string) : Prop := has_char slash s = false.

(** A path with the given segments. *)
Definition join_path (segs : list string) : string :=
  String.concat (String slash "") segs.

(** Every request of the log succeeded. *)
Definition ok_log (p : Provider) (log : list Call) : Prop :=
  Forall (fun c => fails p c = false) log.

Definition is_raised {E A} (o : outcome E A) : bool :=
  match o with
  | Raised _ => true
  | Ok _ => false
  end.

(** A run of the program is sound for a provider when every request it
    logged succeeded, or when it raised right after a failing request that
    is the last one of the log. *)
Definition sound {E A} (p : Provider) (res : outcome E A * list Call)
  : Prop :=
  ok_log p (snd res)
  \/ (is_raised (fst res) = true
      /\ exists l c, snd res = l ++ [c] /\ ok_log p l /\ fails p c = true).

(** A failing call [c], if the run made it, ended the run: the run raised,
    [c] is the last call of the log, every earlier call succeeded, and [c]
    was not made before. *)
Definition aborts_at {E A} (p : Provider) (c : Call)
    (res : outcome E A * list Call) : Prop :=
  In c (snd res) ->
  is_raised (fst res) = true
  /\ exists l, snd res = l ++ [c] /\ ok_log p l /\ ~ In c l.

(** Run [r] has a job record meeting the success condition, for a job
    table [jobs] indexed by run id. *)
Definition has_match (jobName : string) (jobs : Z -> list Job.t)
    (r : WorkflowRun.t) : bool :=
  existsb (TS.job_succeeded jobName) (jobs (WorkflowRun.id r)).

(** The filter of the Mode A request. *)
Definition successful_on (branch : string) (r : WorkflowRun.t) : bool :=
  String.eqb (WorkflowRun.head_branch r) branch
  && (String.eqb (WorkflowRun.status r) "success"
      || conclusion_is (WorkflowRun.conclusion r) "success").

Definition mode_a_query (owner repo branch : string) : RunsQuery.t :=
  {| RunsQuery.owner := owner;
     RunsQuery.repo := repo;
     RunsQuery.branch := Some branch;
     RunsQuery.status := Some "success";
     RunsQuery.page := Some 1;
     RunsQuery.per_page := Some 1 |}.

(** ** Concrete environments, runs and clients for the examples *)

Module Fixture.

Definition env_of (event ref head_ref : option string) : Env :=
  fun key =>
    if String.eqb key "GITHUB_EVENT_NAME" then event
    else if String.eqb key "GITHUB_REF" then ref
    else if String.eqb key "GITHUB_HEAD_REF" then head_ref
    else if String.eqb key "GITHUB_REPOSITORY" then Some "octo/demo"
    else None.

Definition push_to (ref : string) : Env :=
  env_of (Some "push") (Some ref) None.

Definition pull_request_from (head_ref : string) : Env :=
  env_of (Some "pull_request") (Some "refs/pull/7/merge") (Some head_ref).

Definition job (name status conclusion : string) : Job.t :=
  {| Job.name := name;
     Job.status := status;
     Job.conclusion := Some conclusion |}.

Definition build_ok : Job.t := job "build" "completed" "success".
Definition build_failed : Job.t := job "build" "completed" "failure".
Definition lint_ok : Job.t := job "lint" "completed" "success".

Definition a_run (id : Z) (sha branch status : string)
    (conclusion : option string) : WorkflowRun.t :=
  {| WorkflowRun.id := id;
     WorkflowRun.head_sha := sha;
     WorkflowRun.head_branch := branch;
     WorkflowRun.status := status;
     WorkflowRun.conclusion := conclusion;
     WorkflowRun.head_commit := Some {| HeadCommit.id := sha |} |}.

(** A client that answers every run-list request with [runs]. *)
Definition client (runs : response (list WorkflowRun.t))
    (jobs : Z -> response (list Job.t)) : Provider :=
  {| listWorkflowRuns _ := runs;
     listJobs _ _ i := jobs i |}.

Definition R3 := a_run 3 "c3c3c3" "main" "completed" (Some "failure").
Definition R2 := a_run 2 "b2b2b2" "main" "completed" (Some "success").
Definition R1 := a_run 1 "a1a1a1" "main" "completed" (Some "success").

(** The build job failed in run 3 and succeeded in runs 2 and 1. *)
Definition jobs_321 (i : Z) : response (list Job.t) :=
  if Z.eqb i 3 then Data [lint_ok; build_failed]
  else Data [lint_ok; build_ok].

(** Run 2 is still in progress, its build job is already green. *)
Definition R2_running := a_run 2 "b2b2b2" "main" "in_progress" None.

Definition jobs_running_green (i : Z) : list Job.t :=
  if Z.eqb i 2 then [build_ok] else [build_failed].

Definition jobs_all_green (i : Z) : list Job.t := [build_ok].

(** A newer run on another branch. *)
Definition R9_feature :=
  a_run 9 "f9f9f9" "feature" "completed" (Some "success").

(** The toolkit's input reader for a given job input. *)
Definition inputs (job : string) (name : string) (required : bool)
  : outcome TS.JsError string :=
  if String.eqb name "job" then Ok job else Ok "t0ken".

(** The job fetch of run 2 fails. *)
Definition jobs_fail_at_2 (i : Z) : response (list Job.t) :=
  if Z.eqb i 2 then Failure "rate limit exceeded"
  else Data [build_failed].

(** A re-run: the same job twice in one run, in both orders. *)
Definition jobs_rerun (i : Z) : response (list Job.t) :=
  Data [build_failed; build_ok].
Definition jobs_rerun_swapped (i : Z) : response (list Job.t) :=
  Data [build_ok; build_failed].

(** The run list is fine, the job fetch of run 2 fails. *)
Definition flaky : Provider :=
  client (Data [R3; R2; R1]) jobs_fail_at_2.

(** The run-list request itself fails. *)
Definition down : Provider :=
  client (Failure "bad credentials") jobs_fail_at_2.

(** No run has been recorded yet. *)
Definition no_runs : Provider := client (Data []) jobs_321.

(** The newest run is in progress with a green build job; the older,
    completed run has a green build job too. *)
Definition running_then_green : Provider :=
  client (Data [R2_running; R1]) (fun i => Data (jobs_all_green i)).

(** The newest run is in progress with a green build job; the build job
    of the older, completed run failed. *)
Definition running_then_failed : Provider :=
  client (Data [R2_running; R1]) (fun i => Data (jobs_running_green i)).

(** ASCII stand-ins for [strings.ToUpper] and [strings.TrimSpace]. *)
Definition upper_char (c : ascii) : ascii :=
  let n := nat_of_ascii c in
  if andb (Nat.leb 97 n) (Nat.leb n 122) then ascii_of_nat (n - 32) else c.

Fixpoint to_upper (s : string) : string :=
  match s with
  | EmptyString => EmptyString
  | String c rest => String (upper_char c) (to_upper rest)
  end.

Definition is_space (c : ascii) : bool :=
  let n := nat_of_ascii c in
  Nat.eqb n 32 || (Nat.leb 9 n && Nat.leb n 13).

Fixpoint trim_left (s : string) : string :=
  match s with
  | EmptyString => EmptyString
  | String c rest => if is_space c then trim_left rest else s
  end.

Fixpoint reverse (s acc : string) : string :=
  match s with
  | EmptyString => acc
  | String c rest => reverse rest (String c acc)
  end.

Definition trim (s : string) : string :=
  reverse (trim_left (reverse (trim_left s) "")) "".

(** The environment of a run of the Go action. *)
Definition go_env (paths job : option string) : Env :=
  fun key =>
    if String.eqb key "INPUT_PATHS" then paths
    else if String.eqb key "INPUT_JOB" then job
    else if String.eqb key "GITHUB_OUTPUT" then Some "/tmp/output"
    else push_to "refs/heads/main" key.

(** An operating system on which only the empty path cannot be opened. *)
Definition plain_os : Go.OS :=
  {| Go.open_error path :=
       if String.eqb path "" then Some "open : no such file or directory"
       else None;
     Go.write_error _ _ := None |}.

(** The output file already holds one record. *)
Definition one_record : Go.Files :=
  fun p => if String.eqb p "/tmp/output" then Some "other=1" else None.

(** The toolkit's input reader when the token is missing. *)
Definition inputs_without_token (name : string) (required : bool)
  : outcome TS.JsError string :=
  if String.eqb name "token"
  then Raised (TS.Error "Input required and not supplied: token")
  else Ok "build".

(** The build job failed in every run; run 2 is still in progress. *)
Definition never_green : Provider :=
  client (Data [R3; R2_running; R1]) (fun _ => Data [lint_ok; build_failed]).

(** As [flaky], with run 2 still in progress. *)
Definition flaky_running : Provider :=
  client (Data [R3; R2_running; R1]) jobs_fail_at_2.

(** No variable is set. *)
Definition bare : Env := fun _ => None.

End Fixture.

(** Run [x] was fetched without a job record meeting the success
    condition, respectively with one. *)
Definition clean (p : Provider) (owner repo jobName : string)
    (x : WorkflowRun.t) : Prop :=
  exists jobs,
    listJobs p owner repo (WorkflowRun.id x) = Data jobs
    /\ ~ Exists (is_success jobName) jobs.

Definition green (p : Provider) (owner repo jobName : string)
    (x : WorkflowRun.t) : Prop :=
  exists jobs,
    listJobs p owner repo (WorkflowRun.id x) = Data jobs
    /\ Exists (is_success jobName) jobs.

(** The scan of [runs] stopped at [x]: every run before [x] was clean. *)
Definition stops_at (p : Provider) (owner repo jobName : string)
    (runs : list WorkflowRun.t) (x : WorkflowRun.t)
    (scanned : list WorkflowRun.t) : Prop :=
  exists pre post,
    runs = pre ++ x :: post
    /\ scanned = pre ++ [x]
    /\ Forall (clean p owner repo jobName) pre.

(** ** Basic facts *)

Lemma conclusion_is_spec c v : conclusion_is c v = true <-> c = Some v.
Proof.
  destruct c as [s|]; simpl.
  - rewrite String.eqb_eq. split; congruence.
  - split; discriminate.
Qed.

Lemma ts_job_succeeded_spec jobName j :
  TS.job_succeeded jobName j = true <-> is_success jobName j.
Proof.
  unfold TS.job_succeeded, is_success.
  rewrite !andb_true_iff, !String.eqb_eq, conclusion_is_spec. tauto.
Qed.

Lemma go_job_succeeded_ts jobName j :
  Go.job_succeeded jobName j = TS.job_succeeded jobName j.
Proof.
  unfold Go.job_succeeded, TS.job_succeeded, Go.GetConclusion, conclusion_is.
  destruct (Job.conclusion j); reflexivity.
Qed.

Lemma go_job_succeeded_spec jobName j :
  Go.job_succeeded jobName j = true <-> is_success jobName j.
Proof. rewrite go_job_succeeded_ts. apply ts_job_succeeded_spec. Qed.

Lemma existsb_is_success jobName jobs :
  existsb (TS.job_succeeded jobName) jobs = true
  <-> Exists (is_success jobName) jobs.
Proof.
  rewrite existsb_exists, Exists_exists.
  split; intros [j [Hin Hj]]; exists j; split; trivial;
    now apply ts_job_succeeded_spec.
Qed.

Lemma not_existsb_is_success jobName jobs :
  existsb (TS.job_succeeded jobName) jobs = false
  <-> ~ Exists (is_success jobName) jobs.
Proof.
  rewrite <- existsb_is_success.
  destruct (existsb _ jobs); split; intro H; congruence.
Qed.

(** The inner loops decide [existsb] of the job test. *)
Lemma ts_scan_jobs_existsb jobName sha jobs :
  TS.scan_jobs jobName sha jobs =
  if existsb (TS.job_succeeded jobName) jobs then Some sha else None.
Proof.
  induction jobs as [|j jobs IH]; simpl; trivial.
  destruct (TS.job_succeeded jobName j); simpl; trivial.
Qed.

Lemma go_scan_jobs_existsb jobName r jobs :
  Go.scan_jobs jobName r jobs =
  if existsb (TS.job_succeeded jobName) jobs
  then Some (Go.GetID (Go.GetHeadCommit r)) else None.
Proof.
  induction jobs as [|j jobs IH]; simpl; trivial.
  rewrite go_job_succeeded_ts.
  destruct (TS.job_succeeded jobName j); simpl; trivial.
Qed.

Lemma existsb_permutation {A} (f : A -> bool) l l' :
  Permutation l l' -> existsb f l = existsb f l'.
Proof.
  induction 1; simpl; try congruence.
  - now destruct (f x), (f y).
Qed.

(** One step of each outer loop, on a run whose jobs are known. *)
Lemma ts_scan_runs_step p owner repo jobName r rest jobs log :
  listJobs p owner repo (WorkflowRun.id r) = Data jobs ->
  TS.scan_runs p owner repo jobName (r :: rest) log =
  if existsb (TS.job_succeeded jobName) jobs
  then (Ok (Some (WorkflowRun.head_sha r)),
        log ++ [ListJobs owner repo (WorkflowRun.id r)])
  else TS.scan_runs p owner repo jobName rest
         (log ++ [ListJobs owner repo (WorkflowRun.id r)]).
Proof.
  intros Hj. simpl. unfold bind, request. rewrite Hj.
  rewrite ts_scan_jobs_existsb.
  destruct (existsb _ jobs); reflexivity.
Qed.

Lemma go_scan_runs_skip p owner repo jobName r rest log :
  completed r = false ->
  Go.scan_runs p owner repo jobName (r :: rest) log =
  Go.scan_runs p owner repo jobName rest log.
Proof. unfold completed. intros Hc. simpl. now rewrite Hc. Qed.

Lemma go_scan_runs_step p owner repo jobName r rest jobs log :
  completed r = true ->
  listJobs p owner repo (WorkflowRun.id r) = Data jobs ->
  Go.scan_runs p owner repo jobName (r :: rest) log =
  if existsb (TS.job_succeeded jobName) jobs
  then (Ok (Some (Go.GetID (Go.GetHeadCommit r))),
        log ++ [ListJobs owner repo (WorkflowRun.id r)])
  else Go.scan_runs p owner repo jobName rest
         (log ++ [ListJobs owner repo (WorkflowRun.id r)]).
Proof.
  unfold completed. intros Hc Hj. simpl. rewrite Hc.
  unfold bind, request. rewrite Hj, go_scan_jobs_existsb.
  destruct (existsb _ jobs); reflexivity.
Qed.

(** Unfolding of the two Mode B entry points once the run list is known. *)
Lemma ts_handleJobSha_runs p owner repo branch jobName runs :
  listWorkflowRuns p (TS.jobs_query owner repo branch) = Data runs ->
  run (TS.handleJobSha p owner repo branch jobName) =
  match TS.scan_runs p owner repo jobName runs
          [ListWorkflowRuns (TS.jobs_query owner repo branch)] with
  | (Ok (Some sha), log) => (Ok sha, log)
  | (Ok None, log) => (Ok "", log)
  | (Raised e, log) => (Raised e, log)
  end.
Proof.
  intros Hr. unfold run, TS.handleJobSha, bind, request. rewrite Hr. simpl.
  destruct (TS.scan_runs _ _ _ _ _ _) as [[[sha|]|e] log]; reflexivity.
Qed.

Lemma go_getLast_runs env p owner repo extra jobName runs :
  split (Go.Getenv env Go.githubRepository) slash = owner :: repo :: extra ->
  listWorkflowRuns p (Go.runs_query owner repo) = Data runs ->
  run (Go.getLastSuccessfulWorkflowRunCommit env p jobName) =
  match Go.scan_runs p owner repo jobName runs
          [ListWorkflowRuns (Go.runs_query owner repo)] with
  | (Ok (Some sha), log) => (Ok sha, log)
  | (Ok None, log) =>
      match runs with
      | newest :: _ => (Ok (Go.GetID (Go.GetHeadCommit newest)), log)
      | [] => (Raised (Go.IndexOutOfRange 0 0), log)
      end
  | (Raised e, log) => (Raised e, log)
  end.
Proof.
  intros He Hr.
  unfold run, Go.getLastSuccessfulWorkflowRunCommit, bind, lift, request.
  rewrite He. simpl. rewrite Hr. simpl.
  destruct (Go.scan_runs _ _ _ _ _ _) as [[[sha|]|e] log]; trivial.
  destruct runs; reflexivity.
Qed.

(** ** Splitting a path into its segments *)

Lemma split_free seg sep :
  has_char sep seg = false -> split seg sep = [seg].
Proof.
  induction seg as [|c seg IH]; simpl; trivial.
  rewrite Ascii.eqb_sym.
  destruct (Ascii.eqb c sep); simpl; try discriminate.
  intros H. now rewrite (IH H).
Qed.

Lemma split_app_sep seg rest sep :
  has_char sep seg = false ->
  split (seg ++ String sep rest)%string sep = seg :: split rest sep.
Proof.
  induction seg as [|c seg IH]; simpl.
  - now rewrite Ascii.eqb_refl.
  - rewrite Ascii.eqb_sym.
    destruct (Ascii.eqb c sep); simpl; try discriminate.
    intros H. now rewrite (IH H).
Qed.

(** Splitting undoes joining, for segments free of the separator. *)
Lemma split_join seg segs sep :
  Forall (fun s => has_char sep s = false) (seg :: segs) ->
  split (String.concat (String sep "") (seg :: segs)) sep = seg :: segs.
Proof.
  revert seg. induction segs as [|s segs IH]; intros seg H.
  - simpl. apply split_free. now inversion H.
  - inversion H as [|? ? Hseg Hrest]; subst.
    change (String.concat (String sep "") (seg :: s :: segs))
      with (seg ++ String sep (String.concat (String sep "") (s :: segs)))%string.
    rewrite split_app_sep by trivial.
    now rewrite IH.
Qed.

Lemma has_char_app c a b :
  has_char c (a ++ b)%string = has_char c a || has_char c b.
Proof.
  induction a as [|x a IH]; simpl; trivial.
  rewrite IH. now destruct (Ascii.eqb c x).
Qed.

(** ** The call log: every request but a failing last one succeeded *)

Lemma ok_log_app p l c :
  ok_log p l -> fails p c = false -> ok_log p (l ++ [c]).
Proof.
  intros Hl Hc. apply Forall_app. split; trivial. now constructor.
Qed.

Lemma sound_request_runs {E A} p q (wrap : string -> E)
      (k : list WorkflowRun.t -> M E A) log :
  ok_log p log ->
  (forall a log', ok_log p log' -> sound p (k a log')) ->
  sound p (bind (request (ListWorkflowRuns q) (listWorkflowRuns p q) wrap)
             k log).
Proof.
  intros Hlog Hk. unfold bind, request.
  destruct (listWorkflowRuns p q) as [a|e] eqn:Hq.
  - apply Hk. apply ok_log_app; trivial. simpl. now rewrite Hq.
  - right. split; [reflexivity|].
    exists log, (ListWorkflowRuns q). repeat split; trivial.
    simpl. now rewrite Hq.
Qed.

Lemma sound_request_jobs {E A} p o r i (wrap : string -> E)
      (k : list Job.t -> M E A) log :
  ok_log p log ->
  (forall a log', ok_log p log' -> sound p (k a log')) ->
  sound p (bind (request (ListJobs o r i) (listJobs p o r i) wrap) k log).
Proof.
  intros Hlog Hk. unfold bind, request.
  destruct (listJobs p o r i) as [a|e] eqn:Hq.
  - apply Hk. apply ok_log_app; trivial. simpl. now rewrite Hq.
  - right. split; [reflexivity|].
    exists log, (ListJobs o r i). repeat split; trivial.
    simpl. now rewrite Hq.
Qed.

Lemma sound_bind {E A B} p (m : M E A) (k : A -> M E B) log :
  sound p (m log) ->
  (forall a log', ok_log p log' -> sound p (k a log')) ->
  sound p (bind m k log).
Proof.
  unfold bind, sound. destruct (m log) as [[a|e] log']; simpl.
  - intros [Hok|[Hr _]] Hk; [now apply Hk | discriminate Hr].
  - intros H _. exact H.
Qed.

Lemma sound_pure {E A} p (o : outcome E A) log :
  ok_log p log -> sound p (o, log).
Proof. intros H. now left. Qed.

Lemma ts_scan_runs_sound p owner repo jobName runs :
  forall log, ok_log p log ->
              sound p (TS.scan_runs p owner repo jobName runs log).
Proof.
  induction runs as [|r runs IH]; intros log Hlog; simpl.
  - now apply sound_pure.
  - apply sound_request_jobs; trivial.
    intros jobs log' Hlog'.
    destruct (TS.scan_jobs _ _ jobs); [now apply sound_pure | now apply IH].
Qed.

Lemma go_scan_runs_sound p owner repo jobName runs :
  forall log, ok_log p log ->
              sound p (Go.scan_runs p owner repo jobName runs log).
Proof.
  induction runs as [|r runs IH]; intros log Hlog; simpl.
  - now apply sound_pure.
  - destruct (String.eqb (WorkflowRun.status r) "completed"); [|now apply IH].
    apply sound_request_jobs; trivial.
    intros jobs log' Hlog'.
    destruct (Go.scan_jobs _ _ jobs); [now apply sound_pure | now apply IH].
Qed.

Lemma ts_handleWorkflowRunSha_sound p owner repo branch :
  sound p (run (TS.handleWorkflowRunSha p owner repo branch)).
Proof.
  unfold run, TS.handleWorkflowRunSha.
  apply sound_request_runs; [constructor|].
  intros runs log Hlog. destruct runs; now apply sound_pure.
Qed.

Lemma ts_handleJobSha_sound p owner repo branch jobName :
  sound p (run (TS.handleJobSha p owner repo branch jobName)).
Proof.
  unfold run, TS.handleJobSha.
  apply sound_request_runs; [constructor|].
  intros runs log Hlog. apply sound_bind.
  - now apply ts_scan_runs_sound.
  - intros [sha|] log' Hlog'; now apply sound_pure.
Qed.

Lemma go_getLast_sound env p jobName :
  sound p (run (Go.getLastSuccessfulWorkflowRunCommit env p jobName)).
Proof.
  unfold run, Go.getLastSuccessfulWorkflowRunCommit.
  apply sound_bind; [apply sound_pure; constructor|].
  intros owner log Hlog.
  apply sound_bind; [now apply sound_pure|].
  intros repo log1 Hlog1.
  apply sound_request_runs; trivial.
  intros runs log2 Hlog2. apply sound_bind.
  - now apply go_scan_runs_sound.
  - intros [sha|] log3 Hlog3; [now apply sound_pure|].
    apply sound_bind; [now apply sound_pure|].
    intros newest log4 Hlog4. now apply sound_pure.
Qed.

(** What soundness of a log says about a call that failed. *)
Lemma sound_failed_call {E A} p (res : outcome E A * list Call) c :
  sound p res ->
  In c (snd res) -> fails p c = true ->
  is_raised (fst res) = true
  /\ exists l, snd res = l ++ [c] /\ ok_log p l /\ ~ In c l.
Proof.
  intros [Hok|[Hr [l [c' [Hlog [Hl Hc']]]]]] Hin Hf.
  - unfold ok_log in Hok. rewrite Forall_forall in Hok.
    specialize (Hok c Hin). congruence.
  - assert (Hnot : ~ In c l).
    { intros Hc. unfold ok_log in Hl. rewrite Forall_forall in Hl.
      specialize (Hl c Hc). congruence. }
    rewrite Hlog in Hin. apply in_app_or in Hin.
    destruct Hin as [Hin|[<-|[]]]; [contradiction|].
    split; [now destruct (fst res)|].
    exists l. auto.
Qed.

(** ** Job order inside a run *)

Lemma ts_scan_runs_same_jobs p p' owner repo jobName :
  (forall i, same_jobs (listJobs p owner repo i) (listJobs p' owner repo i)) ->
  forall runs log,
    TS.scan_runs p owner repo jobName runs log =
    TS.scan_runs p' owner repo jobName runs log.
Proof.
  intros Hj. induction runs as [|r runs IH]; intros log; simpl; trivial.
  unfold bind, request. specialize (Hj (WorkflowRun.id r)).
  destruct (listJobs p owner repo _) as [l|e],
           (listJobs p' owner repo _) as [l'|e']; simpl in Hj;
    try contradiction; [|now subst].
  rewrite !ts_scan_jobs_existsb, (existsb_permutation _ _ _ Hj).
  destruct (existsb _ l'); trivial.
Qed.

Lemma go_scan_runs_same_jobs p p' owner repo jobName :
  (forall i, same_jobs (listJobs p owner repo i) (listJobs p' owner repo i)) ->
  forall runs log,
    Go.scan_runs p owner repo jobName runs log =
    Go.scan_runs p' owner repo jobName runs log.
Proof.
  intros Hj. induction runs as [|r runs IH]; intros log; simpl; trivial.
  destruct (String.eqb (WorkflowRun.status r) "completed"); trivial.
  unfold bind, request. specialize (Hj (WorkflowRun.id r)).
  destruct (listJobs p owner repo _) as [l|e],
           (listJobs p' owner repo _) as [l'|e']; simpl in Hj;
    try contradiction; [|now subst].
  rewrite !go_scan_jobs_existsb, (existsb_permutation _ _ _ Hj).
  destruct (existsb _ l'); trivial.
Qed.

(** ** Mode B: newest first, first match wins *)

(** C1.  With the fetched history [R3 :: R2 :: older] (newest first), where
    no job record of R3 meets the success condition for the named job, a
    job record of R2 does, and an older run R1 has one too, the TypeScript
    resolver returns R2's head commit hash after exactly the requests for
    the run list, R3's jobs and R2's jobs; the Go resolver, for R2
    completed, returns R2's head commit hash and requests jobs only for
    the completed runs among R3 and R2.  Nothing is requested for R1 or
    any other older run. *)
Theorem job_success_newest_first_short_circuit
    (p : Provider) (env : Env) (owner repo branch jobName : string)
    (extra : list string) (R3 R2 R1 : WorkflowRun.t)
    (older : list WorkflowRun.t) (jobs3 jobs2 jobs1 : list Job.t) :
  split (Go.Getenv env Go.githubRepository) slash = owner :: repo :: extra ->
  listWorkflowRuns p (TS.jobs_query owner repo branch)
    = Data (R3 :: R2 :: older) ->
  listWorkflowRuns p (Go.runs_query owner repo) = Data (R3 :: R2 :: older) ->
  In R1 older ->
  listJobs p owner repo (WorkflowRun.id R3) = Data jobs3 ->
  listJobs p owner repo (WorkflowRun.id R2) = Data jobs2 ->
  listJobs p owner repo (WorkflowRun.id R1) = Data jobs1 ->
  ~ Exists (is_success jobName) jobs3 ->
  Exists (is_success jobName) jobs2 ->
  Exists (is_success jobName) jobs1 ->
  run (TS.handleJobSha p owner repo branch jobName)
    = (Ok (WorkflowRun.head_sha R2),
       ListWorkflowRuns (TS.jobs_query owner repo branch)
         :: job_calls owner repo [R3; R2])
  /\ (completed R2 = true ->
      run (Go.getLastSuccessfulWorkflowRunCommit env p jobName)
        = (Ok (Go.GetID (Go.GetHeadCommit R2)),
           ListWorkflowRuns (Go.runs_query owner repo)
             :: job_calls owner repo (filter completed [R3; R2]))).
Proof.
  intros Henv Hts Hgo _ H3 H2 _ Hno Hyes _.
  apply not_existsb_is_success in Hno.
  apply existsb_is_success in Hyes.
  split.
  - rewrite (ts_handleJobSha_runs _ _ _ _ _ _ Hts).
    rewrite (ts_scan_runs_step _ _ _ _ _ _ _ _ H3), Hno.
    rewrite (ts_scan_runs_step _ _ _ _ _ _ _ _ H2), Hyes.
    reflexivity.
  - intros Hc2.
    rewrite (go_getLast_runs _ _ _ _ _ _ _ Henv Hgo).
    simpl filter. rewrite Hc2.
    destruct (completed R3) eqn:Hc3.
    + rewrite (go_scan_runs_step _ _ _ _ _ _ _ _ Hc3 H3), Hno.
      rewrite (go_scan_runs_step _ _ _ _ _ _ _ _ Hc2 H2), Hyes.
      reflexivity.
    + rewrite (go_scan_runs_skip _ _ _ _ _ _ _ Hc3).
      rewrite (go_scan_runs_step _ _ _ _ _ _ _ _ Hc2 H2), Hyes.
      reflexivity.
Qed.

Lemma job_success_newest_first_short_circuit_witness :
  run (TS.handleJobSha
         (Fixture.client (Data [Fixture.R3; Fixture.R2; Fixture.R1])
            Fixture.jobs_321)
         "octo" "demo" "main" "build")
    = (Ok "b2b2b2",
       [ListWorkflowRuns (TS.jobs_query "octo" "demo" "main");
        ListJobs "octo" "demo" 3; ListJobs "octo" "demo" 2])
  /\ run (Go.getLastSuccessfulWorkflowRunCommit
            (Fixture.push_to "refs/heads/main")
            (Fixture.client (Data [Fixture.R3; Fixture.R2; Fixture.R1])
               Fixture.jobs_321)
            "build")
     = (Ok "b2b2b2",
        [ListWorkflowRuns (Go.runs_query "octo" "demo");
         ListJobs "octo" "demo" 3; ListJobs "octo" "demo" 2]).
Proof.
  destruct (job_success_newest_first_short_circuit
              (Fixture.client (Data [Fixture.R3; Fixture.R2; Fixture.R1])
                 Fixture.jobs_321)
              (Fixture.push_to "refs/heads/main")
              "octo" "demo" "main" "build" []
              Fixture.R3 Fixture.R2 Fixture.R1 [Fixture.R1]
              [Fixture.lint_ok; Fixture.build_failed]
              [Fixture.lint_ok; Fixture.build_ok]
              [Fixture.lint_ok; Fixture.build_ok]) as [Hts Hgo].
  - reflexivity.
  - reflexivity.
  - reflexivity.
  - left. reflexivity.
  - reflexivity.
  - reflexivity.
  - reflexivity.
  - apply not_existsb_is_success. reflexivity.
  - apply existsb_is_success. reflexivity.
  - apply existsb_is_success. reflexivity.
  - split; [exact Hts | apply Hgo; reflexivity].
Defined.

(** ** Mode A: the newest successful run *)

Lemma firstn_1_filter {A} (f : A -> bool) l :
  firstn 1 (filter f l) =
  match find f l with
  | Some a => [a]
  | None => []
  end.
Proof.
  induction l as [|a l IH]; simpl; trivial.
  destruct (f a); simpl; trivial.
Qed.

Lemma history_mode_a_response dpp history jobs_of owner repo branch :
  listWorkflowRuns (History.provider dpp history jobs_of)
    (mode_a_query owner repo branch)
  = Data match find (successful_on branch) history with
         | Some r => [r]
         | None => []
         end.
Proof.
  simpl. unfold History.page_of. simpl.
  rewrite <- firstn_1_filter. reflexivity.
Qed.

Lemma ts_handleWorkflowRunSha_history dpp history jobs_of owner repo branch :
  run (TS.handleWorkflowRunSha (History.provider dpp history jobs_of)
         owner repo branch)
  = (Ok match find (successful_on branch) history with
        | Some r => WorkflowRun.head_sha r
        | None => ""
        end,
     [ListWorkflowRuns (mode_a_query owner repo branch)]).
Proof.
  unfold run, TS.handleWorkflowRunSha, bind, request. cbv zeta.
  change {| RunsQuery.owner := owner; RunsQuery.repo := repo;
            RunsQuery.branch := Some branch;
            RunsQuery.status := Some "success";
            RunsQuery.page := Some 1; RunsQuery.per_page := Some 1 |}
    with (mode_a_query owner repo branch).
  rewrite history_mode_a_response.
  destruct (find _ history); reflexivity.
Qed.

(** C2.  When no job name is supplied ([job] input empty), [getSha] runs
    Mode A: over any repository history its result is the head commit hash
    of the newest run on the branch with a success status, or the empty
    string when the history has no such run.  The only request made is the
    run-list request; the result is the same whatever the job table
    [jobs_of] of the provider holds. *)
Theorem latest_successful_run_without_job_name
    (getInput : string -> bool -> outcome TS.JsError string)
    (getOctokit : string -> Provider) (env : Env)
    (token owner repo branch : string)
    (default_per_page : nat) (history : list WorkflowRun.t)
    (jobs_of : Z -> list Job.t) :
  getInput "job" false = Ok "" ->
  getInput "token" true = Ok token ->
  TS.getCurrentBranchName env = Ok branch ->
  getOctokit token = History.provider default_per_page history jobs_of ->
  run (TS.getSha getInput getOctokit (owner, repo) env)
  = (Ok match find (successful_on branch) history with
        | Some r => WorkflowRun.head_sha r
        | None => ""
        end,
     [ListWorkflowRuns (mode_a_query owner repo branch)]).
Proof.
  intros Hjob Htoken Hbranch Hclient.
  unfold run, TS.getSha, bind, lift.
  rewrite Hjob, Htoken, Hbranch, Hclient. simpl String.eqb. cbv iota.
  exact (ts_handleWorkflowRunSha_history default_per_page history jobs_of
           owner repo branch).
Qed.

Lemma latest_successful_run_without_job_name_witness :
  run (TS.getSha (Fixture.inputs "")
         (fun _ => History.provider 30
                     [Fixture.R9_feature; Fixture.R3; Fixture.R2; Fixture.R1]
                     Fixture.jobs_running_green)
         ("octo", "demo") (Fixture.push_to "refs/heads/main"))
  = (Ok "b2b2b2", [ListWorkflowRuns (mode_a_query "octo" "demo" "main")]).
Proof.
  apply (latest_successful_run_without_job_name
           (Fixture.inputs "")
           (fun _ => History.provider 30
                       [Fixture.R9_feature; Fixture.R3; Fixture.R2; Fixture.R1]
                       Fixture.jobs_running_green)
           (Fixture.push_to "refs/heads/main")
           "t0ken" "octo" "demo" "main" 30
           [Fixture.R9_feature; Fixture.R3; Fixture.R2; Fixture.R1]
           Fixture.jobs_running_green).
  - reflexivity.
  - reflexivity.
  - reflexivity.
  - reflexivity.
Defined.

(** ** Job order inside a run does not matter *)

Lemma ts_scan_jobs_found jobName sha jobs :
  Exists (is_success jobName) jobs ->
  TS.scan_jobs jobName sha jobs = Some sha.
Proof.
  intros H. apply existsb_is_success in H.
  now rewrite ts_scan_jobs_existsb, H.
Qed.

Lemma go_scan_jobs_found jobName r jobs :
  Exists (is_success jobName) jobs ->
  Go.scan_jobs jobName r jobs = Some (Go.GetID (Go.GetHeadCommit r)).
Proof.
  intros H. apply existsb_is_success in H.
  now rewrite go_scan_jobs_existsb, H.
Qed.

(** C8.  Whether a run matches depends on its job records up to their
    order: a run with at least one record meeting the success condition
    matches, whatever its other records are, and the scan of a permuted
    job list gives the same answer.  Consequently two providers that
    return the same run lists and, for every run, the same job records in
    possibly different orders lead both resolvers to the same result and
    the same requests. *)
Theorem job_order_does_not_change_the_match
    (p p' : Provider) (env : Env) (owner repo branch jobName : string) :
  (forall q, listWorkflowRuns p q = listWorkflowRuns p' q) ->
  (forall o r i, same_jobs (listJobs p o r i) (listJobs p' o r i)) ->
  (forall sha jobs,
      Exists (is_success jobName) jobs ->
      TS.scan_jobs jobName sha jobs = Some sha)
  /\ (forall run jobs,
      Exists (is_success jobName) jobs ->
      Go.scan_jobs jobName run jobs = Some (Go.GetID (Go.GetHeadCommit run)))
  /\ (forall sha jobs jobs',
      Permutation jobs jobs' ->
      TS.scan_jobs jobName sha jobs = TS.scan_jobs jobName sha jobs')
  /\ (forall run jobs jobs',
      Permutation jobs jobs' ->
      Go.scan_jobs jobName run jobs = Go.scan_jobs jobName run jobs')
  /\ run (TS.handleJobSha p owner repo branch jobName)
     = run (TS.handleJobSha p' owner repo branch jobName)
  /\ run (Go.getLastSuccessfulWorkflowRunCommit env p jobName)
     = run (Go.getLastSuccessfulWorkflowRunCommit env p' jobName).
Proof.
  intros Hruns Hjobs.
  split; [intros; now apply ts_scan_jobs_found|].
  split; [intros; now apply go_scan_jobs_found|].
  split.
  { intros sha jobs jobs' Hperm.
    now rewrite !ts_scan_jobs_existsb, (existsb_permutation _ _ _ Hperm). }
  split.
  { intros r jobs jobs' Hperm.
    now rewrite !go_scan_jobs_existsb, (existsb_permutation _ _ _ Hperm). }
  split.
  - unfold run, TS.handleJobSha, bind, request. cbv zeta.
    rewrite Hruns.
    destruct (listWorkflowRuns p' _) as [runs|e]; trivial.
    now rewrite (ts_scan_runs_same_jobs p p' owner repo jobName
                   (Hjobs owner repo)).
  - unfold run, Go.getLastSuccessfulWorkflowRunCommit, bind, lift, request.
    cbv zeta.
    destruct (Go.index _ 0) as [o|e0]; trivial.
    destruct (Go.index _ 1) as [r|e1]; trivial.
    rewrite Hruns.
    destruct (listWorkflowRuns p' _) as [runs|e]; trivial.
    now rewrite (go_scan_runs_same_jobs p p' o r jobName (Hjobs o r)).
Qed.

Lemma job_order_does_not_change_the_match_witness :
  TS.scan_jobs "build" "b2b2b2" [Fixture.build_failed; Fixture.build_ok]
    = Some "b2b2b2"
  /\ TS.scan_jobs "build" "b2b2b2" [Fixture.build_failed; Fixture.build_ok]
     = TS.scan_jobs "build" "b2b2b2" [Fixture.build_ok; Fixture.build_failed]
  /\ run (TS.handleJobSha
            (Fixture.client (Data [Fixture.R2; Fixture.R1]) Fixture.jobs_rerun)
            "octo" "demo" "main" "build")
     = run (TS.handleJobSha
              (Fixture.client (Data [Fixture.R2; Fixture.R1])
                 Fixture.jobs_rerun_swapped)
              "octo" "demo" "main" "build")
  /\ run (Go.getLastSuccessfulWorkflowRunCommit
            (Fixture.push_to "refs/heads/main")
            (Fixture.client (Data [Fixture.R2; Fixture.R1]) Fixture.jobs_rerun)
            "build")
     = run (Go.getLastSuccessfulWorkflowRunCommit
              (Fixture.push_to "refs/heads/main")
              (Fixture.client (Data [Fixture.R2; Fixture.R1])
                 Fixture.jobs_rerun_swapped)
              "build").
Proof.
  destruct (job_order_does_not_change_the_match
              (Fixture.client (Data [Fixture.R2; Fixture.R1])
                 Fixture.jobs_rerun)
              (Fixture.client (Data [Fixture.R2; Fixture.R1])
                 Fixture.jobs_rerun_swapped)
              (Fixture.push_to "refs/heads/main")
              "octo" "demo" "main" "build")
    as (Hfound & _ & Hperm & _ & Hts & Hgo).
  - intros q. reflexivity.
  - intros o r i. simpl. apply perm_swap.
  - split.
    { apply Hfound. apply Exists_cons_tl, Exists_cons_hd.
      repeat split; reflexivity. }
    split; [apply Hperm, perm_swap|].
    split; [exact Hts | exact Hgo].
Defined.

(** ** Provider failures *)

Lemma ts_run_list_failure_mode_a p owner repo branch e :
  listWorkflowRuns p (mode_a_query owner repo branch) = Failure e ->
  run (TS.handleWorkflowRunSha p owner repo branch)
  = (Raised (TS.Error ("Error getting workflow runs: " ++ e)),
     [ListWorkflowRuns (mode_a_query owner repo branch)]).
Proof.
  intros H. unfold run, TS.handleWorkflowRunSha, bind, request. cbv zeta.
  change {| RunsQuery.owner := owner; RunsQuery.repo := repo;
            RunsQuery.branch := Some branch;
            RunsQuery.status := Some "success";
            RunsQuery.page := Some 1; RunsQuery.per_page := Some 1 |}
    with (mode_a_query owner repo branch).
  now rewrite H.
Qed.

Lemma ts_run_list_failure_mode_b p owner repo branch jobName e :
  listWorkflowRuns p (TS.jobs_query owner repo branch) = Failure e ->
  run (TS.handleJobSha p owner repo branch jobName)
  = (Raised (TS.Error ("Error getting workflow runs: " ++ e)),
     [ListWorkflowRuns (TS.jobs_query owner repo branch)]).
Proof.
  intros H. unfold run, TS.handleJobSha, bind, request. cbv zeta.
  now rewrite H.
Qed.

Lemma go_run_list_failure env p owner repo extra jobName e :
  split (Go.Getenv env Go.githubRepository) slash = owner :: repo :: extra ->
  listWorkflowRuns p (Go.runs_query owner repo) = Failure e ->
  run (Go.getLastSuccessfulWorkflowRunCommit env p jobName)
  = (Raised (Go.PanicErr e), [ListWorkflowRuns (Go.runs_query owner repo)]).
Proof.
  intros He H.
  unfold run, Go.getLastSuccessfulWorkflowRunCommit, bind, lift, request.
  rewrite He. simpl. now rewrite H.
Qed.

(** C9.  If a provider request fails, then in Mode A, in Mode B of the
    TypeScript realization and in the Go realization alike, a run that
    makes this request raises (it yields neither a commit hash nor the
    empty string), the failing request is the last entry of the call log
    (no further request follows), every request before it succeeded, and
    the failing request does not occur earlier in the log (it is not
    tried again). *)
Theorem provider_failure_aborts_resolution
    (p : Provider) (env : Env) (owner repo branch jobName : string)
    (c : Call) :
  fails p c = true ->
  aborts_at p c (run (TS.handleWorkflowRunSha p owner repo branch))
  /\ aborts_at p c (run (TS.handleJobSha p owner repo branch jobName))
  /\ aborts_at p c (run (Go.getLastSuccessfulWorkflowRunCommit env p jobName)).
Proof.
  intros Hf. unfold aborts_at. split; [|split]; intros Hin.
  - exact (sound_failed_call p _ c
             (ts_handleWorkflowRunSha_sound p owner repo branch) Hin Hf).
  - exact (sound_failed_call p _ c
             (ts_handleJobSha_sound p owner repo branch jobName) Hin Hf).
  - exact (sound_failed_call p _ c
             (go_getLast_sound env p jobName) Hin Hf).
Qed.

Lemma provider_failure_aborts_resolution_witness :
  (is_raised (fst (run (TS.handleWorkflowRunSha Fixture.down
                          "octo" "demo" "main"))) = true
   /\ exists l,
       snd (run (TS.handleWorkflowRunSha Fixture.down "octo" "demo" "main"))
         = l ++ [ListWorkflowRuns (mode_a_query "octo" "demo" "main")]
       /\ ok_log Fixture.down l
       /\ ~ In (ListWorkflowRuns (mode_a_query "octo" "demo" "main")) l)
  /\ (is_raised (fst (run (TS.handleJobSha Fixture.flaky
                             "octo" "demo" "main" "build"))) = true
      /\ exists l,
          snd (run (TS.handleJobSha Fixture.flaky
                      "octo" "demo" "main" "build"))
            = l ++ [ListJobs "octo" "demo" 2]
          /\ ok_log Fixture.flaky l
          /\ ~ In (ListJobs "octo" "demo" 2) l)
  /\ (is_raised (fst (run (Go.getLastSuccessfulWorkflowRunCommit
                             (Fixture.push_to "refs/heads/main")
                             Fixture.flaky "build"))) = true
      /\ exists l,
          snd (run (Go.getLastSuccessfulWorkflowRunCommit
                      (Fixture.push_to "refs/heads/main")
                      Fixture.flaky "build"))
            = l ++ [ListJobs "octo" "demo" 2]
          /\ ok_log Fixture.flaky l
          /\ ~ In (ListJobs "octo" "demo" 2) l).
Proof.
  split; [|split].
  - apply (provider_failure_aborts_resolution Fixture.down
             (Fixture.push_to "refs/heads/main") "octo" "demo" "main" "build"
             (ListWorkflowRuns (mode_a_query "octo" "demo" "main"))
             eq_refl).
    left. reflexivity.
  - apply (provider_failure_aborts_resolution Fixture.flaky
             (Fixture.push_to "refs/heads/main") "octo" "demo" "main" "build"
             (ListJobs "octo" "demo" 2) eq_refl).
    right. right. left. reflexivity.
  - apply (provider_failure_aborts_resolution Fixture.flaky
             (Fixture.push_to "refs/heads/main") "octo" "demo" "main" "build"
             (ListJobs "octo" "demo" 2) eq_refl).
    right. right. left. reflexivity.
Defined.

(** ** Runs that are not completed *)

(** The Go loop behaves as if the non-completed runs were not in the list:
    their jobs are not requested and they cannot be the match. *)
Lemma go_scan_runs_filter_completed p owner repo jobName runs :
  forall log,
    Go.scan_runs p owner repo jobName runs log =
    Go.scan_runs p owner repo jobName (filter completed runs) log.
Proof.
  induction runs as [|r runs IH]; intros log; trivial.
  destruct (completed r) eqn:Hc.
  - simpl filter. rewrite Hc. simpl. unfold completed in Hc. rewrite Hc.
    unfold bind.
    destruct (request _ _ _ log) as [[jobs|e] log']; trivial.
    destruct (Go.scan_jobs _ _ jobs); trivial.
  - rewrite (go_scan_runs_skip _ _ _ _ _ _ _ Hc). simpl filter. rewrite Hc.
    apply IH.
Qed.

(** C4.  The TypeScript loop has no status test: on a fetched list whose
    newest run is in progress with a green build job, it requests that
    run's jobs and returns that run's head commit hash.  The Go loop skips
    the run and returns the hash of the completed run behind it. *)
Theorem ts_examines_runs_that_are_not_completed :
  completed Fixture.R2_running = false
  /\ run (TS.handleJobSha Fixture.running_then_green
            "octo" "demo" "main" "build")
     = (Ok (WorkflowRun.head_sha Fixture.R2_running),
        [ListWorkflowRuns (TS.jobs_query "octo" "demo" "main");
         ListJobs "octo" "demo" (WorkflowRun.id Fixture.R2_running)])
  /\ run (Go.getLastSuccessfulWorkflowRunCommit
            (Fixture.push_to "refs/heads/main")
            Fixture.running_then_green "build")
     = (Ok (WorkflowRun.head_sha Fixture.R1),
        [ListWorkflowRuns (Go.runs_query "octo" "demo");
         ListJobs "octo" "demo" (WorkflowRun.id Fixture.R1)]).
Proof. repeat split. Qed.

(** ** The empty run list *)

Lemma ts_mode_a_no_runs p owner repo branch :
  listWorkflowRuns p (mode_a_query owner repo branch) = Data [] ->
  run (TS.handleWorkflowRunSha p owner repo branch)
  = (Ok "", [ListWorkflowRuns (mode_a_query owner repo branch)]).
Proof.
  intros H. unfold run, TS.handleWorkflowRunSha, bind, request. cbv zeta.
  change {| RunsQuery.owner := owner; RunsQuery.repo := repo;
            RunsQuery.branch := Some branch;
            RunsQuery.status := Some "success";
            RunsQuery.page := Some 1; RunsQuery.per_page := Some 1 |}
    with (mode_a_query owner repo branch).
  now rewrite H.
Qed.

Lemma ts_mode_b_no_runs p owner repo branch jobName :
  listWorkflowRuns p (TS.jobs_query owner repo branch) = Data [] ->
  run (TS.handleJobSha p owner repo branch jobName)
  = (Ok "", [ListWorkflowRuns (TS.jobs_query owner repo branch)]).
Proof.
  intros H. now rewrite (ts_handleJobSha_runs _ _ _ _ _ _ H).
Qed.

Lemma go_no_runs env p owner repo extra jobName :
  split (Go.Getenv env Go.githubRepository) slash = owner :: repo :: extra ->
  listWorkflowRuns p (Go.runs_query owner repo) = Data [] ->
  run (Go.getLastSuccessfulWorkflowRunCommit env p jobName)
  = (Raised (Go.IndexOutOfRange 0 0),
     [ListWorkflowRuns (Go.runs_query owner repo)]).
Proof.
  intros He H. now rewrite (go_getLast_runs _ _ _ _ _ _ _ He H).
Qed.

(** C5.  On a provider that returns no run at all, both TypeScript modes
    return the empty string, and the Go realization panics: its fallback
    indexes the first element of the empty run list. *)
Theorem go_panics_when_no_run_exists :
  run (TS.handleWorkflowRunSha Fixture.no_runs "octo" "demo" "main")
    = (Ok "", [ListWorkflowRuns (mode_a_query "octo" "demo" "main")])
  /\ run (TS.handleJobSha Fixture.no_runs "octo" "demo" "main" "build")
     = (Ok "", [ListWorkflowRuns (TS.jobs_query "octo" "demo" "main")])
  /\ run (Go.getLastSuccessfulWorkflowRunCommit
            (Fixture.push_to "refs/heads/main") Fixture.no_runs "build")
     = (Raised (Go.IndexOutOfRange 0 0),
        [ListWorkflowRuns (Go.runs_query "octo" "demo")]).
Proof. repeat split. Qed.

(** ** The two realizations of Mode B compared *)

(** With a provider whose job requests all succeed, each outer loop
    computes a [find] over the fetched runs. *)
Lemma ts_scan_runs_find p owner repo jobName jobs runs :
  (forall i, listJobs p owner repo i = Data (jobs i)) ->
  forall log,
    fst (TS.scan_runs p owner repo jobName runs log)
    = Ok (option_map WorkflowRun.head_sha (find (has_match jobName jobs) runs)).
Proof.
  intros Hj. induction runs as [|r runs IH]; intros log; trivial.
  rewrite (ts_scan_runs_step _ _ _ _ _ _ _ _ (Hj (WorkflowRun.id r))).
  simpl find. unfold has_match at 1.
  destruct (existsb _ (jobs (WorkflowRun.id r))); [reflexivity | apply IH].
Qed.

Lemma go_scan_runs_find p owner repo jobName jobs runs :
  (forall i, listJobs p owner repo i = Data (jobs i)) ->
  forall log,
    fst (Go.scan_runs p owner repo jobName runs log)
    = Ok (option_map (fun r => Go.GetID (Go.GetHeadCommit r))
            (find (has_match jobName jobs) (filter completed runs))).
Proof.
  intros Hj. induction runs as [|r runs IH]; intros log; trivial.
  destruct (completed r) eqn:Hc.
  - rewrite (go_scan_runs_step _ _ _ _ _ _ _ _ Hc (Hj (WorkflowRun.id r))).
    simpl filter. rewrite Hc. simpl find. unfold has_match at 1.
    destruct (existsb _ (jobs (WorkflowRun.id r))); [reflexivity | apply IH].
  - rewrite (go_scan_runs_skip _ _ _ _ _ _ _ Hc). simpl filter. rewrite Hc.
    apply IH.
Qed.

Lemma filter_all {A} (f : A -> bool) l :
  Forall (fun a => f a = true) l -> filter f l = l.
Proof.
  induction 1 as [|a l Ha _ IH]; simpl; trivial.
  now rewrite Ha, IH.
Qed.

Lemma fst_ts_handleJobSha p owner repo branch jobName jobs runs :
  listWorkflowRuns p (TS.jobs_query owner repo branch) = Data runs ->
  (forall i, listJobs p owner repo i = Data (jobs i)) ->
  fst (run (TS.handleJobSha p owner repo branch jobName))
  = Ok match find (has_match jobName jobs) runs with
       | Some r => WorkflowRun.head_sha r
       | None => ""
       end.
Proof.
  intros Hr Hj. rewrite (ts_handleJobSha_runs _ _ _ _ _ _ Hr).
  pose proof (ts_scan_runs_find p owner repo jobName jobs runs Hj
                [ListWorkflowRuns (TS.jobs_query owner repo branch)]) as H.
  destruct (TS.scan_runs _ _ _ _ _ _) as [[[sha|]|e] log];
    simpl in H |- *; destruct (find _ runs); simpl in H; congruence.
Qed.

Lemma fst_go_getLast env p owner repo extra jobName jobs newest rest :
  split (Go.Getenv env Go.githubRepository) slash = owner :: repo :: extra ->
  listWorkflowRuns p (Go.runs_query owner repo) = Data (newest :: rest) ->
  (forall i, listJobs p owner repo i = Data (jobs i)) ->
  fst (run (Go.getLastSuccessfulWorkflowRunCommit env p jobName))
  = Ok (Go.GetID (Go.GetHeadCommit
          match find (has_match jobName jobs)
                  (filter completed (newest :: rest)) with
          | Some r => r
          | None => newest
          end)).
Proof.
  intros He Hr Hj. rewrite (go_getLast_runs _ _ _ _ _ _ _ He Hr).
  pose proof (go_scan_runs_find p owner repo jobName jobs (newest :: rest) Hj
                [ListWorkflowRuns (Go.runs_query owner repo)]) as H.
  destruct (Go.scan_runs _ _ _ _ _ _) as [[[sha|]|e] log];
    simpl fst in H |- *;
    destruct (find _ (filter completed (newest :: rest)));
    simpl in H; congruence.
Qed.

(** On a history whose fetched runs are all completed (and carry their
    head commit consistently), the two realizations differ in the no-match
    fallback only. *)
Lemma mode_b_realizations_on_completed_runs
    env p owner repo extra branch jobName jobs newest rest :
  split (Go.Getenv env Go.githubRepository) slash = owner :: repo :: extra ->
  listWorkflowRuns p (TS.jobs_query owner repo branch)
    = Data (newest :: rest) ->
  listWorkflowRuns p (Go.runs_query owner repo) = Data (newest :: rest) ->
  (forall i, listJobs p owner repo i = Data (jobs i)) ->
  Forall (fun r => completed r = true) (newest :: rest) ->
  Forall (fun r => Go.GetID (Go.GetHeadCommit r) = WorkflowRun.head_sha r)
         (newest :: rest) ->
  match find (has_match jobName jobs) (newest :: rest) with
  | None =>
      fst (run (TS.handleJobSha p owner repo branch jobName)) = Ok ""
      /\ fst (run (Go.getLastSuccessfulWorkflowRunCommit env p jobName))
         = Ok (WorkflowRun.head_sha newest)
  | Some r =>
      fst (run (TS.handleJobSha p owner repo branch jobName))
        = Ok (WorkflowRun.head_sha r)
      /\ fst (run (Go.getLastSuccessfulWorkflowRunCommit env p jobName))
         = Ok (WorkflowRun.head_sha r)
  end.
Proof.
  intros He Hts Hgo Hj Hc Hwf.
  rewrite (fst_ts_handleJobSha _ _ _ _ _ _ _ Hts Hj).
  rewrite (fst_go_getLast _ _ _ _ _ _ _ _ _ He Hgo Hj).
  rewrite (filter_all _ _ Hc).
  destruct (find _ (newest :: rest)) as [r|] eqn:Hfind.
  - split; trivial. f_equal.
    apply find_some in Hfind. destruct Hfind as [Hin _].
    rewrite Forall_forall in Hwf. now apply Hwf.
  - split; trivial. f_equal. now inversion Hwf.
Qed.

(** C3.  A fetched history in which no completed run contains a green
    build job, because the only green build job sits in a run still in
    progress: the TypeScript realization does not return the empty string
    but that run's hash.  And where the in-progress run and the completed
    run behind it both have a green build job, the two realizations return
    different hashes. *)
Theorem ts_matches_inside_a_run_in_progress :
  forallb (fun r => negb (completed r
                          && has_match "build" Fixture.jobs_running_green r))
    [Fixture.R2_running; Fixture.R1] = true
  /\ run (TS.handleJobSha Fixture.running_then_failed
            "octo" "demo" "main" "build")
     = (Ok "b2b2b2",
        [ListWorkflowRuns (TS.jobs_query "octo" "demo" "main");
         ListJobs "octo" "demo" 2])
  /\ run (Go.getLastSuccessfulWorkflowRunCommit
            (Fixture.push_to "refs/heads/main")
            Fixture.running_then_failed "build")
     = (Ok "b2b2b2",
        [ListWorkflowRuns (Go.runs_query "octo" "demo");
         ListJobs "octo" "demo" 1])
  /\ fst (run (TS.handleJobSha Fixture.running_then_green
                 "octo" "demo" "main" "build")) = Ok "b2b2b2"
  /\ fst (run (Go.getLastSuccessfulWorkflowRunCommit
                 (Fixture.push_to "refs/heads/main")
                 Fixture.running_then_green "build")) = Ok "a1a1a1".
Proof. repeat split. Qed.

(** ** The branch of the run-list request *)

Lemma filter_andb {A} (f g : A -> bool) l :
  filter (fun a => f a && g a) l = filter g (filter f l).
Proof.
  induction l as [|a l IH]; simpl; trivial.
  destruct (f a); simpl; [destruct (g a)|]; now rewrite IH.
Qed.

Lemma filter_true {A} (l : list A) : filter (fun _ => true) l = l.
Proof. induction l as [|a l IH]; simpl; congruence. Qed.

Lemma ts_scan_runs_same_job_table p p' owner repo jobName runs log :
  (forall o r i, listJobs p o r i = listJobs p' o r i) ->
  TS.scan_runs p owner repo jobName runs log =
  TS.scan_runs p' owner repo jobName runs log.
Proof.
  intros H. apply ts_scan_runs_same_jobs. intros i. rewrite H.
  destruct (listJobs p' owner repo i); simpl; trivial.
Qed.

(** The TypeScript Mode B request names the branch: two repository
    histories with the same runs on that branch give the same result and
    the same requests, whatever runs they hold on other branches.  The Go
    request names no branch: the provider answers it with the newest runs
    of the whole repository. *)
Lemma ts_job_request_is_restricted_to_the_branch
    (default_per_page : nat) (history history' : list WorkflowRun.t)
    (jobs_of : Z -> list Job.t) (owner repo branch jobName : string) :
  filter (History.on_branch (Some branch)) history
    = filter (History.on_branch (Some branch)) history' ->
  run (TS.handleJobSha (History.provider default_per_page history jobs_of)
         owner repo branch jobName)
  = run (TS.handleJobSha (History.provider default_per_page history' jobs_of)
           owner repo branch jobName)
  /\ listWorkflowRuns (History.provider default_per_page history jobs_of)
       (Go.runs_query owner repo)
     = Data (firstn default_per_page history).
Proof.
  intros Hsame. split.
  - unfold run, TS.handleJobSha, bind, request. cbv zeta.
    assert (Hresp :
      listWorkflowRuns (History.provider default_per_page history jobs_of)
        (TS.jobs_query owner repo branch)
      = listWorkflowRuns (History.provider default_per_page history' jobs_of)
          (TS.jobs_query owner repo branch)).
    { simpl. unfold History.selected. simpl RunsQuery.branch.
      rewrite !filter_andb, Hsame. reflexivity. }
    rewrite Hresp.
    destruct (listWorkflowRuns
                (History.provider default_per_page history' jobs_of) _)
      as [runs|e]; trivial.
    rewrite (ts_scan_runs_same_job_table
               (History.provider default_per_page history jobs_of)
               (History.provider default_per_page history' jobs_of));
      trivial.
  - simpl. unfold History.page_of, History.selected. simpl.
    now rewrite filter_true.
Qed.

Lemma ts_job_request_is_restricted_to_the_branch_witness :
  run (TS.handleJobSha
         (History.provider 30 [Fixture.R9_feature; Fixture.R2]
            Fixture.jobs_all_green)
         "octo" "demo" "main" "build")
  = run (TS.handleJobSha
           (History.provider 30 [Fixture.R2] Fixture.jobs_all_green)
           "octo" "demo" "main" "build")
  /\ listWorkflowRuns
       (History.provider 30 [Fixture.R9_feature; Fixture.R2]
          Fixture.jobs_all_green)
       (Go.runs_query "octo" "demo")
     = Data (firstn 30 [Fixture.R9_feature; Fixture.R2]).
Proof.
  apply (ts_job_request_is_restricted_to_the_branch 30
           [Fixture.R9_feature; Fixture.R2] [Fixture.R2]
           Fixture.jobs_all_green "octo" "demo" "main" "build").
  reflexivity.
Defined.

(** C6.  The Go realization does not restrict the run list to a branch:
    on a push to [main], a newer run on branch [feature] with a green
    build job decides the result; without that run the result is the hash
    of the run on [main]. *)
Theorem go_considers_runs_of_other_branches :
  Go.getCurrentBranchName (Fixture.push_to "refs/heads/main")
    = "refs/heads/main"
  /\ WorkflowRun.head_branch Fixture.R9_feature = "feature"
  /\ fst (run (Go.getLastSuccessfulWorkflowRunCommit
                 (Fixture.push_to "refs/heads/main")
                 (History.provider 30 [Fixture.R9_feature; Fixture.R2]
                    Fixture.jobs_all_green)
                 "build"))
     = Ok (WorkflowRun.head_sha Fixture.R9_feature)
  /\ fst (run (Go.getLastSuccessfulWorkflowRunCommit
                 (Fixture.push_to "refs/heads/main")
                 (History.provider 30 [Fixture.R2] Fixture.jobs_all_green)
                 "build"))
     = Ok (WorkflowRun.head_sha Fixture.R2)
  /\ WorkflowRun.head_sha Fixture.R9_feature
     <> WorkflowRun.head_sha Fixture.R2.
Proof. repeat split. discriminate. Qed.

(** ** Branch resolution *)

Lemma nth_error_split_join segs :
  Forall slash_free segs ->
  nth_error (split (join_path segs) slash) 2 = nth_error segs 2.
Proof.
  intros H. destruct segs as [|seg segs]; trivial.
  unfold join_path. now rewrite split_join.
Qed.

Lemma strict_eq_false v s : v <> Some s -> TS.strict_eq v s = false.
Proof.
  destruct v as [x|]; simpl; trivial.
  intros H. apply String.eqb_neq. congruence.
Qed.

Lemma eqb_empty_false b : b <> "" -> String.eqb b "" = false.
Proof. apply String.eqb_neq. Qed.

Lemma ts_branch_of_ref env segs :
  env "GITHUB_EVENT_NAME" <> Some "pull_request" ->
  env "GITHUB_REF" = Some (join_path segs) ->
  Forall slash_free segs ->
  TS.getCurrentBranchName env =
  match nth_error segs 2 with
  | Some b =>
      if String.eqb b ""
      then Raised (TS.Error "Could not get branch name from GITHUB_REF")
      else Ok b
  | None => Raised (TS.Error "Could not get branch name from GITHUB_REF")
  end.
Proof.
  intros Hev Href Hfree. unfold TS.getCurrentBranchName, TS.ghEnv.
  rewrite (strict_eq_false _ _ Hev), Href, (nth_error_split_join _ Hfree).
  destruct (nth_error segs 2); reflexivity.
Qed.

Lemma go_event_not_pull_request env :
  env "GITHUB_EVENT_NAME" <> Some "pull_request" ->
  String.eqb (Go.Getenv env Go.githubEventName) "pull_request" = false.
Proof.
  intros H. apply String.eqb_neq. unfold Go.Getenv, Go.githubEventName.
  destruct (env "GITHUB_EVENT_NAME") as [v|]; [congruence | discriminate].
Qed.

(** The Go resolver returns the head-ref, respectively the whole ref,
    as found in the environment (empty when unset); it never fails. *)
Lemma go_branch_is_the_raw_variable env :
  (env "GITHUB_EVENT_NAME" = Some "pull_request" ->
   Go.getCurrentBranchName env = Go.Getenv env "GITHUB_HEAD_REF")
  /\ (env "GITHUB_EVENT_NAME" <> Some "pull_request" ->
      Go.getCurrentBranchName env = Go.Getenv env "GITHUB_REF").
Proof.
  split; intros Hev; unfold Go.getCurrentBranchName.
  - unfold Go.Getenv at 1. unfold Go.githubEventName. now rewrite Hev.
  - now rewrite (go_event_not_pull_request _ Hev).
Qed.

(** C7 (amended).  The TypeScript resolver: on a pull request it returns
    the head-ref, and raises when the head-ref is absent or empty;
    otherwise it returns the third [/]-separated segment of the ref when
    that segment is not empty, and raises when the ref is absent, has
    fewer than three segments, or has an empty third segment. *)
Theorem branch_resolution (env : Env) (segs : list string) :
  Forall slash_free segs ->
  (env "GITHUB_EVENT_NAME" = Some "pull_request" ->
   (forall h, env "GITHUB_HEAD_REF" = Some h -> h <> "" ->
              TS.getCurrentBranchName env = Ok h)
   /\ (env "GITHUB_HEAD_REF" = None \/ env "GITHUB_HEAD_REF" = Some "" ->
       TS.getCurrentBranchName env
       = Raised (TS.Error "Could not get branch name from GITHUB_HEAD_REF")))
  /\ (env "GITHUB_EVENT_NAME" <> Some "pull_request" ->
      (env "GITHUB_REF" = None ->
       TS.getCurrentBranchName env
       = Raised (TS.Error "Could not get branch name from GITHUB_REF"))
      /\ (env "GITHUB_REF" = Some (join_path segs) ->
          (forall b, nth_error segs 2 = Some b -> b <> "" ->
                     TS.getCurrentBranchName env = Ok b)
          /\ (length segs < 3 \/ nth_error segs 2 = Some "" ->
              TS.getCurrentBranchName env
              = Raised
                  (TS.Error "Could not get branch name from GITHUB_REF")))).
Proof.
  intros Hfree. split.
  - intros Hev. unfold TS.getCurrentBranchName, TS.ghEnv.
    rewrite Hev. simpl. split.
    + intros h Hh Hne. rewrite Hh. simpl. now rewrite (eqb_empty_false _ Hne).
    + intros [Hh|Hh]; now rewrite Hh.
  - intros Hev. split.
    + intros Href. unfold TS.getCurrentBranchName, TS.ghEnv.
      now rewrite (strict_eq_false _ _ Hev), Href.
    + intros Href. split.
      * intros b Hb Hne.
        rewrite (ts_branch_of_ref env segs Hev Href Hfree), Hb.
        now rewrite (eqb_empty_false _ Hne).
      * intros [Hlen|Hempty];
          rewrite (ts_branch_of_ref env segs Hev Href Hfree).
        -- assert (Hn : nth_error segs 2 = None)
             by (apply nth_error_None; lia).
           now rewrite Hn.
        -- now rewrite Hempty.
Qed.

Lemma branch_resolution_witness :
  TS.getCurrentBranchName (Fixture.pull_request_from "feature-x")
    = Ok "feature-x"
  /\ TS.getCurrentBranchName (Fixture.push_to "refs/heads/main") = Ok "main"
  /\ TS.getCurrentBranchName (Fixture.push_to "refs/heads")
     = Raised (TS.Error "Could not get branch name from GITHUB_REF").
Proof.
  split; [|split].
  - destruct (branch_resolution (Fixture.pull_request_from "feature-x") [])
      as [Hpr _]; [constructor|].
    destruct Hpr as (Hhead & _); [reflexivity|].
    apply Hhead; [reflexivity | discriminate].
  - destruct (branch_resolution (Fixture.push_to "refs/heads/main")
                ["refs"; "heads"; "main"]) as [_ Hpush];
      [repeat constructor|].
    destruct Hpush as (_ & Hseg); [discriminate|].
    destruct Hseg as [Hthird _]; [reflexivity|].
    apply Hthird; [reflexivity | discriminate].
  - destruct (branch_resolution (Fixture.push_to "refs/heads")
                ["refs"; "heads"]) as [_ Hpush];
      [repeat constructor|].
    destruct Hpush as (_ & Hseg); [discriminate|].
    destruct Hseg as [_ Hshort]; [reflexivity|].
    apply Hshort. left. simpl. lia.
Defined.

(** C7, as stated, fails.  The TypeScript resolver raises on a ref whose
    third segment is present but empty, instead of returning that segment,
    and on a pull request whose head-ref is present but empty.  The Go
    resolver returns the whole ref where the claim has its third segment,
    and the empty string where the claim has a failure. *)
Lemma branch_resolution_as_stated_fails :
  split "refs/heads/" slash = ["refs"; "heads"; ""]
  /\ TS.getCurrentBranchName (Fixture.push_to "refs/heads/")
     = Raised (TS.Error "Could not get branch name from GITHUB_REF")
  /\ TS.getCurrentBranchName (Fixture.pull_request_from "")
     = Raised (TS.Error "Could not get branch name from GITHUB_HEAD_REF")
  /\ Go.getCurrentBranchName (Fixture.push_to "refs/heads/main")
     = "refs/heads/main"
  /\ Go.getCurrentBranchName
       (Fixture.env_of (Some "pull_request") (Some "refs/pull/7/merge") None)
     = "".
Proof. repeat split. Qed.

(** C10 (amended).  For an event that is not a pull request and a ref of
    more than three segments whose third segment is not empty, the
    TypeScript resolver returns that third segment alone, which differs
    from the branch name made of the third and all later segments. *)
Theorem ts_truncates_branch_names_with_a_slash
    (env : Env) (segs : list string) (b : string) :
  env "GITHUB_EVENT_NAME" <> Some "pull_request" ->
  env "GITHUB_REF" = Some (join_path segs) ->
  Forall slash_free segs ->
  3 < length segs ->
  nth_error segs 2 = Some b ->
  b <> "" ->
  TS.getCurrentBranchName env = Ok b
  /\ b <> join_path (skipn 2 segs).
Proof.
  intros Hev Href Hfree Hlen Hb Hne. split.
  - rewrite (ts_branch_of_ref env segs Hev Href Hfree), Hb.
    now rewrite (eqb_empty_false _ Hne).
  - destruct segs as [|s0 [|s1 [|s2 [|s3 rest]]]]; simpl in Hlen; try lia.
    simpl in Hb. injection Hb as ->.
    assert (Hb : slash_free b).
    { inversion Hfree as [|? ? _ H1]; inversion H1 as [|? ? _ H2].
      now inversion H2. }
    intros Heq. unfold slash_free in Hb. rewrite Heq in Hb at 1.
    change (join_path (skipn 2 (s0 :: s1 :: b :: s3 :: rest)))
      with (b ++ String slash (join_path (s3 :: rest)))%string in Hb.
    rewrite has_char_app in Hb. simpl in Hb.
    rewrite orb_true_r in Hb. discriminate.
Qed.

Lemma ts_truncates_branch_names_with_a_slash_witness :
  TS.getCurrentBranchName (Fixture.push_to "refs/heads/feature/x")
    = Ok "feature"
  /\ "feature" <> join_path (skipn 2 ["refs"; "heads"; "feature"; "x"]).
Proof.
  apply (ts_truncates_branch_names_with_a_slash
           (Fixture.push_to "refs/heads/feature/x")
           ["refs"; "heads"; "feature"; "x"] "feature").
  - discriminate.
  - reflexivity.
  - repeat constructor.
  - simpl. lia.
  - reflexivity.
  - discriminate.
Defined.

(** C10, as stated, fails on a ref of four segments whose third segment is
    empty: the resolver raises instead of returning a segment. *)
Lemma ts_raises_on_an_empty_third_segment :
  split "refs/heads//x" slash = ["refs"; "heads"; ""; "x"]
  /\ 3 < length (split "refs/heads//x" slash)
  /\ TS.getCurrentBranchName (Fixture.push_to "refs/heads//x")
     = Raised (TS.Error "Could not get branch name from GITHUB_REF").
Proof. repeat split. simpl. lia. Qed.

(** ** The scan of the fetched runs, in general *)

Lemma job_calls_app owner repo l l' :
  job_calls owner repo (l ++ l')
  = job_calls owner repo l ++ job_calls owner repo l'.
Proof. apply map_app. Qed.

Lemma clean_existsb p owner repo jobName x jobs :
  clean p owner repo jobName x ->
  listJobs p owner repo (WorkflowRun.id x) = Data jobs ->
  existsb (TS.job_succeeded jobName) jobs = false.
Proof.
  intros [jobs' [Hj Hno]] Hjobs. rewrite Hjobs in Hj.
  injection Hj as <-. now apply not_existsb_is_success.
Qed.

(** Scanning walks through a prefix of clean runs, one request each. *)
Lemma ts_scan_runs_clean_prefix p owner repo jobName pre rest :
  Forall (clean p owner repo jobName) pre ->
  forall log,
    TS.scan_runs p owner repo jobName (pre ++ rest) log
    = TS.scan_runs p owner repo jobName rest
        (log ++ job_calls owner repo pre).
Proof.
  induction 1 as [|x pre Hx _ IH]; intros log.
  - simpl. now rewrite app_nil_r.
  - destruct Hx as [jobs [Hj Hno]].
    rewrite <- app_comm_cons, (ts_scan_runs_step _ _ _ _ _ _ _ _ Hj).
    apply not_existsb_is_success in Hno. rewrite Hno, IH.
    simpl job_calls. now rewrite <- app_assoc.
Qed.

Lemma go_scan_runs_clean_prefix p owner repo jobName pre rest :
  Forall (fun x => completed x = true) pre ->
  Forall (clean p owner repo jobName) pre ->
  forall log,
    Go.scan_runs p owner repo jobName (pre ++ rest) log
    = Go.scan_runs p owner repo jobName rest
        (log ++ job_calls owner repo pre).
Proof.
  induction pre as [|x pre IH]; intros Hc Hclean log.
  - simpl. now rewrite app_nil_r.
  - inversion Hc as [|? ? Hcx Hcpre]; subst.
    inversion Hclean as [|? ? Hx Hpre]; subst.
    destruct Hx as [jobs [Hj Hno]].
    rewrite <- app_comm_cons, (go_scan_runs_step _ _ _ _ _ _ _ _ Hcx Hj).
    apply not_existsb_is_success in Hno. rewrite Hno, IH by trivial.
    simpl job_calls. now rewrite <- app_assoc.
Qed.

Lemma forall_completed_filter runs :
  Forall (fun x => completed x = true) (filter completed runs).
Proof.
  apply Forall_forall. intros x Hx. now apply filter_In in Hx.
Qed.

Lemma forall_completed_prefix pre x post runs :
  filter completed runs = pre ++ x :: post ->
  Forall (fun y => completed y = true) pre /\ completed x = true.
Proof.
  intros H. pose proof (forall_completed_filter runs) as Hall.
  rewrite H in Hall. apply Forall_app in Hall. destruct Hall as [Hpre Hx].
  split; trivial. now inversion Hx.
Qed.

(** The three ways a TypeScript scan can end. *)
Lemma ts_scan_runs_trace p owner repo jobName runs :
  forall log,
    (Forall (clean p owner repo jobName) runs
     /\ TS.scan_runs p owner repo jobName runs log
        = (Ok None, log ++ job_calls owner repo runs))
    \/ exists x scanned,
        stops_at p owner repo jobName runs x scanned
        /\ ((green p owner repo jobName x
             /\ TS.scan_runs p owner repo jobName runs log
                = (Ok (Some (WorkflowRun.head_sha x)),
                   log ++ job_calls owner repo scanned))
            \/ exists e,
                listJobs p owner repo (WorkflowRun.id x) = Failure e
                /\ TS.scan_runs p owner repo jobName runs log
                   = (Raised
                        (TS.Error ("Error getting workflow run jobs: " ++ e)),
                      log ++ job_calls owner repo scanned)).
Proof.
  induction runs as [|a runs IH]; intros log.
  - left. split; [constructor|]. simpl. now rewrite app_nil_r.
  - destruct (listJobs p owner repo (WorkflowRun.id a)) as [jobs|e] eqn:Hj.
    + rewrite (ts_scan_runs_step _ _ _ _ _ _ _ _ Hj).
      destruct (existsb (TS.job_succeeded jobName) jobs) eqn:Hm.
      * right. exists a, [a]. split.
        { exists [], runs. repeat split; constructor. }
        left. split; trivial.
        exists jobs. split; trivial. now apply existsb_is_success.
      * assert (Ha : clean p owner repo jobName a).
        { exists jobs. split; trivial. now apply not_existsb_is_success. }
        destruct (IH (log ++ [ListJobs owner repo (WorkflowRun.id a)]))
          as [[Hall Hres]|[x [scanned [Hstop Hcase]]]].
        -- left. split; [now constructor|].
           rewrite Hres. simpl job_calls. now rewrite <- app_assoc.
        -- right. exists x, (a :: scanned). split.
           { destruct Hstop as [pre [post [Hruns [Hsc Hpre]]]].
             exists (a :: pre), post. subst. repeat split; trivial.
             now constructor. }
           simpl job_calls.
           destruct Hcase as [[Hg Hres]|[e [He Hres]]].
           ++ left. split; trivial. rewrite Hres. now rewrite <- app_assoc.
           ++ right. exists e. split; trivial. rewrite Hres.
              now rewrite <- app_assoc.
    + right. exists a, [a]. split.
      { exists [], runs. repeat split; constructor. }
      right. exists e. split; trivial.
      simpl. unfold bind, request. now rewrite Hj.
Qed.

(** The three ways a Go scan can end, on runs that are all completed. *)
Lemma go_scan_completed_trace p owner repo jobName runs :
  Forall (fun x => completed x = true) runs ->
  forall log,
    (Forall (clean p owner repo jobName) runs
     /\ Go.scan_runs p owner repo jobName runs log
        = (Ok None, log ++ job_calls owner repo runs))
    \/ exists x scanned,
        stops_at p owner repo jobName runs x scanned
        /\ ((green p owner repo jobName x
             /\ Go.scan_runs p owner repo jobName runs log
                = (Ok (Some (Go.GetID (Go.GetHeadCommit x))),
                   log ++ job_calls owner repo scanned))
            \/ exists e,
                listJobs p owner repo (WorkflowRun.id x) = Failure e
                /\ Go.scan_runs p owner repo jobName runs log
                   = (Raised (Go.PanicErr e),
                      log ++ job_calls owner repo scanned)).
Proof.
  induction 1 as [|a runs Hca _ IH]; intros log.
  - left. split; [constructor|]. simpl. now rewrite app_nil_r.
  - destruct (listJobs p owner repo (WorkflowRun.id a)) as [jobs|e] eqn:Hj.
    + rewrite (go_scan_runs_step _ _ _ _ _ _ _ _ Hca Hj).
      destruct (existsb (TS.job_succeeded jobName) jobs) eqn:Hm.
      * right. exists a, [a]. split.
        { exists [], runs. repeat split; constructor. }
        left. split; trivial.
        exists jobs. split; trivial. now apply existsb_is_success.
      * assert (Ha : clean p owner repo jobName a).
        { exists jobs. split; trivial. now apply not_existsb_is_success. }
        destruct (IH (log ++ [ListJobs owner repo (WorkflowRun.id a)]))
          as [[Hall Hres]|[x [scanned [Hstop Hcase]]]].
        -- left. split; [now constructor|].
           rewrite Hres. simpl job_calls. now rewrite <- app_assoc.
        -- right. exists x, (a :: scanned). split.
           { destruct Hstop as [pre [post [Hruns [Hsc Hpre]]]].
             exists (a :: pre), post. subst. repeat split; trivial.
             now constructor. }
           simpl job_calls.
           destruct Hcase as [[Hg Hres]|[e [He Hres]]].
           ++ left. split; trivial. rewrite Hres. now rewrite <- app_assoc.
           ++ right. exists e. split; trivial. rewrite Hres.
              now rewrite <- app_assoc.
    + right. exists a, [a]. split.
      { exists [], runs. repeat split; constructor. }
      right. exists e. split; trivial.
      simpl. unfold completed in Hca. rewrite Hca.
      unfold bind, request. now rewrite Hj.
Qed.

(** X1.  How a TypeScript Mode B resolution can end, once the run list
    was fetched: with the empty string after one job request per fetched
    run, none of which has a green job; with the head commit hash of a run
    that has a green job, every run before it having none, after the job
    requests up to that run; or with the error of a failing job request,
    every run before it having no green job. *)
Theorem ts_job_sha_outcomes
    (p : Provider) (owner repo branch jobName : string)
    (runs : list WorkflowRun.t) :
  listWorkflowRuns p (TS.jobs_query owner repo branch) = Data runs ->
  (Forall (clean p owner repo jobName) runs
   /\ run (TS.handleJobSha p owner repo branch jobName)
      = (Ok "", ListWorkflowRuns (TS.jobs_query owner repo branch)
                  :: job_calls owner repo runs))
  \/ exists x scanned,
      stops_at p owner repo jobName runs x scanned
      /\ ((green p owner repo jobName x
           /\ run (TS.handleJobSha p owner repo branch jobName)
              = (Ok (WorkflowRun.head_sha x),
                 ListWorkflowRuns (TS.jobs_query owner repo branch)
                   :: job_calls owner repo scanned))
          \/ exists e,
              listJobs p owner repo (WorkflowRun.id x) = Failure e
              /\ run (TS.handleJobSha p owner repo branch jobName)
                 = (Raised
                      (TS.Error ("Error getting workflow run jobs: " ++ e)),
                    ListWorkflowRuns (TS.jobs_query owner repo branch)
                      :: job_calls owner repo scanned)).
Proof.
  intros Hr. rewrite (ts_handleJobSha_runs _ _ _ _ _ _ Hr).
  destruct (ts_scan_runs_trace p owner repo jobName runs
              [ListWorkflowRuns (TS.jobs_query owner repo branch)])
    as [[Hall Hres]|[x [scanned [Hstop [[Hg Hres]|[e [He Hres]]]]]]].
  - left. split; trivial. now rewrite Hres.
  - right. exists x, scanned. split; trivial. left. split; trivial.
    now rewrite Hres.
  - right. exists x, scanned. split; trivial. right. exists e.
    split; trivial. now rewrite Hres.
Qed.

Lemma ts_job_sha_outcomes_witness :
  (Forall (clean Fixture.never_green "octo" "demo" "build")
     [Fixture.R3; Fixture.R2_running; Fixture.R1]
   /\ run (TS.handleJobSha Fixture.never_green "octo" "demo" "main" "build")
      = (Ok "", ListWorkflowRuns (TS.jobs_query "octo" "demo" "main")
                  :: job_calls "octo" "demo"
                       [Fixture.R3; Fixture.R2_running; Fixture.R1]))
  \/ exists x scanned,
      stops_at Fixture.never_green "octo" "demo" "build"
        [Fixture.R3; Fixture.R2_running; Fixture.R1] x scanned
      /\ ((green Fixture.never_green "octo" "demo" "build" x
           /\ run (TS.handleJobSha Fixture.never_green
                     "octo" "demo" "main" "build")
              = (Ok (WorkflowRun.head_sha x),
                 ListWorkflowRuns (TS.jobs_query "octo" "demo" "main")
                   :: job_calls "octo" "demo" scanned))
          \/ exists e,
              listJobs Fixture.never_green "octo" "demo" (WorkflowRun.id x)
                = Failure e
              /\ run (TS.handleJobSha Fixture.never_green
                        "octo" "demo" "main" "build")
                 = (Raised
                      (TS.Error ("Error getting workflow run jobs: " ++ e)),
                    ListWorkflowRuns (TS.jobs_query "octo" "demo" "main")
                      :: job_calls "octo" "demo" scanned)).
Proof.
  apply (ts_job_sha_outcomes Fixture.never_green "octo" "demo" "main" "build"
           [Fixture.R3; Fixture.R2_running; Fixture.R1]).
  reflexivity.
Defined.

(** X2.  How a Go resolution can end, once the repository variable was
    split and the run list fetched.  Only completed runs are scanned.  If
    none of them has a green job, the result is the head commit id of the
    newest fetched run, completed or not, and a panic on an empty list;
    otherwise it is the head commit id of the first completed run with a
    green job, or the panic of the first failing job request. *)
Theorem go_commit_outcomes
    (p : Provider) (env : Env) (owner repo jobName : string)
    (extra : list string) (runs : list WorkflowRun.t) :
  split (Go.Getenv env Go.githubRepository) slash = owner :: repo :: extra ->
  listWorkflowRuns p (Go.runs_query owner repo) = Data runs ->
  (Forall (clean p owner repo jobName) (filter completed runs)
   /\ run (Go.getLastSuccessfulWorkflowRunCommit env p jobName)
      = (match runs with
         | newest :: _ => Ok (Go.GetID (Go.GetHeadCommit newest))
         | [] => Raised (Go.IndexOutOfRange 0 0)
         end,
         ListWorkflowRuns (Go.runs_query owner repo)
           :: job_calls owner repo (filter completed runs)))
  \/ exists x scanned,
      stops_at p owner repo jobName (filter completed runs) x scanned
      /\ ((green p owner repo jobName x
           /\ run (Go.getLastSuccessfulWorkflowRunCommit env p jobName)
              = (Ok (Go.GetID (Go.GetHeadCommit x)),
                 ListWorkflowRuns (Go.runs_query owner repo)
                   :: job_calls owner repo scanned))
          \/ exists e,
              listJobs p owner repo (WorkflowRun.id x) = Failure e
              /\ run (Go.getLastSuccessfulWorkflowRunCommit env p jobName)
                 = (Raised (Go.PanicErr e),
                    ListWorkflowRuns (Go.runs_query owner repo)
                      :: job_calls owner repo scanned)).
Proof.
  intros He Hr. rewrite (go_getLast_runs _ _ _ _ _ _ _ He Hr).
  rewrite go_scan_runs_filter_completed.
  destruct (go_scan_completed_trace p owner repo jobName
              (filter completed runs) (forall_completed_filter runs)
              [ListWorkflowRuns (Go.runs_query owner repo)])
    as [[Hall Hres]|[x [scanned [Hstop [[Hg Hres]|[e [Herr Hres]]]]]]].
  - left. split; trivial. rewrite Hres. now destruct runs.
  - right. exists x, scanned. split; trivial. left. split; trivial.
    now rewrite Hres.
  - right. exists x, scanned. split; trivial. right. exists e.
    split; trivial. now rewrite Hres.
Qed.

Lemma go_commit_outcomes_witness :
  (Forall (clean Fixture.never_green "octo" "demo" "build")
     (filter completed [Fixture.R3; Fixture.R2_running; Fixture.R1])
   /\ run (Go.getLastSuccessfulWorkflowRunCommit
             (Fixture.push_to "refs/heads/main") Fixture.never_green "build")
      = (Ok (Go.GetID (Go.GetHeadCommit Fixture.R3)),
         ListWorkflowRuns (Go.runs_query "octo" "demo")
           :: job_calls "octo" "demo"
                (filter completed
                   [Fixture.R3; Fixture.R2_running; Fixture.R1])))
  \/ exists x scanned,
      stops_at Fixture.never_green "octo" "demo" "build"
        (filter completed [Fixture.R3; Fixture.R2_running; Fixture.R1])
        x scanned
      /\ ((green Fixture.never_green "octo" "demo" "build" x
           /\ run (Go.getLastSuccessfulWorkflowRunCommit
                     (Fixture.push_to "refs/heads/main")
                     Fixture.never_green "build")
              = (Ok (Go.GetID (Go.GetHeadCommit x)),
                 ListWorkflowRuns (Go.runs_query "octo" "demo")
                   :: job_calls "octo" "demo" scanned))
          \/ exists e,
              listJobs Fixture.never_green "octo" "demo" (WorkflowRun.id x)
                = Failure e
              /\ run (Go.getLastSuccessfulWorkflowRunCommit
                        (Fixture.push_to "refs/heads/main")
                        Fixture.never_green "build")
                 = (Raised (Go.PanicErr e),
                    ListWorkflowRuns (Go.runs_query "octo" "demo")
                      :: job_calls "octo" "demo" scanned)).
Proof.
  apply (go_commit_outcomes Fixture.never_green
           (Fixture.push_to "refs/heads/main") "octo" "demo" "build" []
           [Fixture.R3; Fixture.R2_running; Fixture.R1]).
  - reflexivity.
  - reflexivity.
Defined.

(** X3.  The first fetched run that is not clean decides a TypeScript
    Mode B resolution: if every fetched run is clean the result is the
    empty string after a full scan; if the first run that is not clean has
    a green job the result is its head commit hash; if its job request
    fails the resolution raises with that error.  In each case the job
    requests are those of the runs up to the deciding run, in order. *)
Theorem ts_job_sha_by_first_unclean_run
    (p : Provider) (owner repo branch jobName : string)
    (runs : list WorkflowRun.t) :
  listWorkflowRuns p (TS.jobs_query owner repo branch) = Data runs ->
  (Forall (clean p owner repo jobName) runs ->
   run (TS.handleJobSha p owner repo branch jobName)
   = (Ok "", ListWorkflowRuns (TS.jobs_query owner repo branch)
               :: job_calls owner repo runs))
  /\ (forall x scanned,
      stops_at p owner repo jobName runs x scanned ->
      green p owner repo jobName x ->
      run (TS.handleJobSha p owner repo branch jobName)
      = (Ok (WorkflowRun.head_sha x),
         ListWorkflowRuns (TS.jobs_query owner repo branch)
           :: job_calls owner repo scanned))
  /\ (forall x scanned e,
      stops_at p owner repo jobName runs x scanned ->
      listJobs p owner repo (WorkflowRun.id x) = Failure e ->
      run (TS.handleJobSha p owner repo branch jobName)
      = (Raised (TS.Error ("Error getting workflow run jobs: " ++ e)),
         ListWorkflowRuns (TS.jobs_query owner repo branch)
           :: job_calls owner repo scanned)).
Proof.
  intros Hr. rewrite (ts_handleJobSha_runs _ _ _ _ _ _ Hr).
  split; [|split].
  - intros Hall.
    pose proof (ts_scan_runs_clean_prefix p owner repo jobName runs []
                  Hall [ListWorkflowRuns (TS.jobs_query owner repo branch)])
      as H.
    rewrite app_nil_r in H. now rewrite H.
  - intros x scanned [pre [post [-> [-> Hpre]]]] [jobs [Hj Hg]].
    rewrite (ts_scan_runs_clean_prefix _ _ _ _ _ _ Hpre).
    rewrite (ts_scan_runs_step _ _ _ _ _ _ _ _ Hj).
    apply existsb_is_success in Hg. rewrite Hg, job_calls_app.
    reflexivity.
  - intros x scanned e [pre [post [-> [-> Hpre]]]] He.
    rewrite (ts_scan_runs_clean_prefix _ _ _ _ _ _ Hpre).
    simpl TS.scan_runs. unfold bind, request. rewrite He, job_calls_app.
    reflexivity.
Qed.

Lemma ts_job_sha_by_first_unclean_run_witness :
  run (TS.handleJobSha Fixture.never_green "octo" "demo" "main" "build")
    = (Ok "", ListWorkflowRuns (TS.jobs_query "octo" "demo" "main")
                :: job_calls "octo" "demo"
                     [Fixture.R3; Fixture.R2_running; Fixture.R1])
  /\ run (TS.handleJobSha Fixture.flaky "octo" "demo" "main" "build")
     = (Raised (TS.Error "Error getting workflow run jobs: rate limit exceeded"),
        ListWorkflowRuns (TS.jobs_query "octo" "demo" "main")
          :: job_calls "octo" "demo" [Fixture.R3; Fixture.R2]).
Proof.
  split.
  - apply (ts_job_sha_by_first_unclean_run Fixture.never_green
             "octo" "demo" "main" "build"
             [Fixture.R3; Fixture.R2_running; Fixture.R1] eq_refl).
    repeat constructor;
      (eexists; split;
       [reflexivity | apply not_existsb_is_success; reflexivity]).
  - apply (proj2 (proj2 (ts_job_sha_by_first_unclean_run Fixture.flaky
                           "octo" "demo" "main" "build"
                           [Fixture.R3; Fixture.R2; Fixture.R1] eq_refl))
             Fixture.R2 [Fixture.R3; Fixture.R2] "rate limit exceeded").
    + exists [Fixture.R3], [Fixture.R1]. repeat split.
      repeat constructor.
      eexists; split;
        [reflexivity | apply not_existsb_is_success; reflexivity].
    + reflexivity.
Defined.

(** X4.  The first completed run that is not clean decides a Go
    resolution: if every completed fetched run is clean, the result is the
    head commit id of the newest fetched run; if the first completed run
    that is not clean has a green job the result is its head commit id; if
    its job request fails the resolution panics with that error.  Job
    requests are made for completed runs only, up to the deciding run. *)
Theorem go_commit_by_first_unclean_run
    (p : Provider) (env : Env) (owner repo jobName : string)
    (extra : list string) (newest : WorkflowRun.t)
    (rest : list WorkflowRun.t) :
  split (Go.Getenv env Go.githubRepository) slash = owner :: repo :: extra ->
  listWorkflowRuns p (Go.runs_query owner repo) = Data (newest :: rest) ->
  (Forall (clean p owner repo jobName) (filter completed (newest :: rest)) ->
   run (Go.getLastSuccessfulWorkflowRunCommit env p jobName)
   = (Ok (Go.GetID (Go.GetHeadCommit newest)),
      ListWorkflowRuns (Go.runs_query owner repo)
        :: job_calls owner repo (filter completed (newest :: rest))))
  /\ (forall x scanned,
      stops_at p owner repo jobName (filter completed (newest :: rest))
        x scanned ->
      green p owner repo jobName x ->
      run (Go.getLastSuccessfulWorkflowRunCommit env p jobName)
      = (Ok (Go.GetID (Go.GetHeadCommit x)),
         ListWorkflowRuns (Go.runs_query owner repo)
           :: job_calls owner repo scanned))
  /\ (forall x scanned e,
      stops_at p owner repo jobName (filter completed (newest :: rest))
        x scanned ->
      listJobs p owner repo (WorkflowRun.id x) = Failure e ->
      run (Go.getLastSuccessfulWorkflowRunCommit env p jobName)
      = (Raised (Go.PanicErr e),
         ListWorkflowRuns (Go.runs_query owner repo)
           :: job_calls owner repo scanned)).
Proof.
  intros Henv Hr. rewrite (go_getLast_runs _ _ _ _ _ _ _ Henv Hr).
  rewrite go_scan_runs_filter_completed.
  split; [|split].
  - intros Hall.
    pose proof (go_scan_runs_clean_prefix p owner repo jobName
                  (filter completed (newest :: rest)) []
                  (forall_completed_filter _) Hall
                  [ListWorkflowRuns (Go.runs_query owner repo)]) as H.
    rewrite app_nil_r in H. now rewrite H.
  - intros x scanned [pre [post [Hruns [-> Hpre]]]] [jobs [Hj Hg]].
    destruct (forall_completed_prefix _ _ _ _ Hruns) as [Hcpre Hcx].
    rewrite Hruns.
    rewrite (go_scan_runs_clean_prefix _ _ _ _ _ _ Hcpre Hpre).
    rewrite (go_scan_runs_step _ _ _ _ _ _ _ _ Hcx Hj).
    apply existsb_is_success in Hg. rewrite Hg, job_calls_app.
    reflexivity.
  - intros x scanned e [pre [post [Hruns [-> Hpre]]]] He.
    destruct (forall_completed_prefix _ _ _ _ Hruns) as [Hcpre Hcx].
    rewrite Hruns.
    rewrite (go_scan_runs_clean_prefix _ _ _ _ _ _ Hcpre Hpre).
    simpl Go.scan_runs. unfold completed in Hcx. rewrite Hcx.
    unfold bind, request. rewrite He, job_calls_app.
    reflexivity.
Qed.

Lemma go_commit_by_first_unclean_run_witness :
  run (Go.getLastSuccessfulWorkflowRunCommit
         (Fixture.push_to "refs/heads/main") Fixture.never_green "build")
    = (Ok "c3c3c3",
       ListWorkflowRuns (Go.runs_query "octo" "demo")
         :: job_calls "octo" "demo" [Fixture.R3; Fixture.R1])
  /\ run (Go.getLastSuccessfulWorkflowRunCommit
            (Fixture.push_to "refs/heads/main")
            (Fixture.client
               (Data [Fixture.R3; Fixture.R2_running; Fixture.R1])
               Fixture.jobs_321)
            "build")
     = (Ok "a1a1a1",
        ListWorkflowRuns (Go.runs_query "octo" "demo")
          :: job_calls "octo" "demo" [Fixture.R3; Fixture.R1]).
Proof.
  split.
  - apply (go_commit_by_first_unclean_run Fixture.never_green
             (Fixture.push_to "refs/heads/main") "octo" "demo" "build" []
             Fixture.R3 [Fixture.R2_running; Fixture.R1] eq_refl eq_refl).
    repeat constructor;
      (eexists; split;
       [reflexivity | apply not_existsb_is_success; reflexivity]).
  - apply (proj1 (proj2 (go_commit_by_first_unclean_run
                           (Fixture.client
                              (Data [Fixture.R3; Fixture.R2_running;
                                     Fixture.R1])
                              Fixture.jobs_321)
                           (Fixture.push_to "refs/heads/main")
                           "octo" "demo" "build" []
                           Fixture.R3 [Fixture.R2_running; Fixture.R1]
                           eq_refl eq_refl))
             Fixture.R1 [Fixture.R3; Fixture.R1]).
    + exists [Fixture.R3], []. repeat split.
      repeat constructor.
      eexists; split;
        [reflexivity | apply not_existsb_is_success; reflexivity].
    + eexists; split; [reflexivity | apply existsb_is_success; reflexivity].
Defined.





(** ** The repository variable *)

(** X6.  When [GITHUB_REPOSITORY] holds no [/] (in particular when it is
    unset), the Go resolver panics on [owner_repo[1]], index 1 of a slice
    of length 1, before any request is made. *)
Theorem go_repository_without_slash_panics
    (env : Env) (p : Provider) (jobName : string) :
  has_char slash (Go.Getenv env Go.githubRepository) = false ->
  run (Go.getLastSuccessfulWorkflowRunCommit env p jobName)
  = (Raised (Go.IndexOutOfRange 1 1), []).
Proof.
  intros H.
  unfold run, Go.getLastSuccessfulWorkflowRunCommit, bind, lift.
  now rewrite (split_free _ _ H).
Qed.

Lemma go_repository_without_slash_panics_witness :
  run (Go.getLastSuccessfulWorkflowRunCommit Fixture.bare
         Fixture.never_green "build")
  = (Raised (Go.IndexOutOfRange 1 1), []).
Proof.
  apply (go_repository_without_slash_panics Fixture.bare
           Fixture.never_green "build").
  reflexivity.
Defined.

(** ** Splitting and joining *)

Lemma split_cons s sep : exists seg segs, split s sep = seg :: segs.
Proof.
  destruct s as [|c s]; simpl; eauto.
  destruct (Ascii.eqb c sep); eauto.
  destruct (split s sep); eauto.
Qed.

Lemma split_segments_free s sep :
  Forall (fun seg => has_char sep seg = false) (split s sep).
Proof.
  induction s as [|c s IH]; simpl.
  - repeat constructor.
  - destruct (Ascii.eqb c sep) eqn:Hc.
    + constructor; trivial.
    + destruct (split s sep) as [|seg segs]; constructor.
      * simpl. now rewrite Ascii.eqb_sym, Hc.
      * constructor.
      * inversion IH; subst. simpl. now rewrite Ascii.eqb_sym, Hc.
      * now inversion IH.
Qed.

Lemma concat_cons_cons sep a b l :
  String.concat sep (a :: b :: l)
  = (a ++ sep ++ String.concat sep (b :: l))%string.
Proof. reflexivity. Qed.

(** X7.  Joining the segments of a split string with the separator gives
    the string back, no segment of a split contains the separator, and
    splitting a joined non-empty list of separator-free segments gives the
    list back. *)
Theorem split_and_join_are_inverse
    (sep : ascii) (s seg : string) (segs : list string) :
  Forall (fun x => has_char sep x = false) (seg :: segs) ->
  String.concat (String sep "") (split s sep) = s
  /\ Forall (fun x => has_char sep x = false) (split s sep)
  /\ split (String.concat (String sep "") (seg :: segs)) sep = seg :: segs.
Proof.
  intros Hfree. split; [|split].
  - clear Hfree. induction s as [|c s IH]; trivial.
    simpl split. destruct (Ascii.eqb c sep) eqn:Hc.
    + apply Ascii.eqb_eq in Hc. subst c.
      destruct (split_cons s sep) as [x [l Hs]]. rewrite Hs in IH |- *.
      rewrite concat_cons_cons, IH. reflexivity.
    + destruct (split_cons s sep) as [x [l Hs]]. rewrite Hs in IH |- *.
      destruct l as [|y l].
      * simpl in IH |- *. now rewrite IH.
      * rewrite concat_cons_cons in IH |- *. rewrite <- IH. reflexivity.
  - apply split_segments_free.
  - now apply split_join.
Qed.

Lemma split_and_join_are_inverse_witness :
  String.concat "/" (split "refs/heads//x/" slash) = "refs/heads//x/"
  /\ Forall (fun x => has_char slash x = false)
       (split "refs/heads//x/" slash)
  /\ split (String.concat "/" ["octo"; "demo"]) slash = ["octo"; "demo"].
Proof.
  apply (split_and_join_are_inverse slash "refs/heads//x/" "octo" ["demo"]).
  repeat constructor.
Defined.

(** ** What the branch resolvers return *)

(** X8.  A branch name returned by the TypeScript resolver is never
    empty; for an event that is not a pull request it is the third segment
    of [GITHUB_REF] and contains no [/]. *)
Theorem ts_branch_name_is_a_nonempty_segment (env : Env) (b : string) :
  TS.getCurrentBranchName env = Ok b ->
  b <> ""
  /\ (env "GITHUB_EVENT_NAME" <> Some "pull_request" ->
      has_char slash b = false
      /\ exists ref,
          env "GITHUB_REF" = Some ref
          /\ nth_error (split ref slash) 2 = Some b).
Proof.
  unfold TS.getCurrentBranchName, TS.ghEnv.
  destruct (TS.strict_eq (env "GITHUB_EVENT_NAME") "pull_request") eqn:Hev.
  - destruct (env "GITHUB_HEAD_REF") as [h|]; simpl; try discriminate.
    destruct (String.eqb h "") eqn:Hh; try discriminate.
    intros [= ->]. split; [now apply String.eqb_neq|].
    intros Hne. exfalso. apply Hne.
    destruct (env "GITHUB_EVENT_NAME") as [v|]; simpl in Hev;
      try discriminate.
    apply String.eqb_eq in Hev. now subst.
  - destruct (env "GITHUB_REF") as [ref|]; try discriminate.
    destruct (nth_error (split ref slash) 2) as [seg|] eqn:Hseg;
      try discriminate.
    simpl. destruct (String.eqb seg "") eqn:Hs; try discriminate.
    intros [= ->]. split; [now apply String.eqb_neq|].
    intros _. split.
    + pose proof (split_segments_free ref slash) as Hfree.
      rewrite Forall_forall in Hfree. apply Hfree.
      eapply nth_error_In. exact Hseg.
    + exists ref. split; trivial.
Qed.

Lemma ts_branch_name_is_a_nonempty_segment_witness :
  "feature" <> ""
  /\ has_char slash "feature" = false
  /\ nth_error (split "refs/heads/feature/x" slash) 2 = Some "feature".
Proof.
  destruct (ts_branch_name_is_a_nonempty_segment
              (Fixture.push_to "refs/heads/feature/x") "feature" eq_refl)
    as [Hne Hseg].
  destruct Hseg as [Hfree [ref [Href Hnth]]]; [discriminate|].
  injection Href as <-.
  split; [exact Hne | split; [exact Hfree | exact Hnth]].
Defined.

(** X9.  Where the TypeScript resolver returns a branch name, the Go
    resolver returns the same name on a pull request, and on any other
    event a ref whose third segment is that name. *)
Theorem branch_resolvers_agree (env : Env) (b : string) :
  TS.getCurrentBranchName env = Ok b ->
  (env "GITHUB_EVENT_NAME" = Some "pull_request" ->
   Go.getCurrentBranchName env = b)
  /\ (env "GITHUB_EVENT_NAME" <> Some "pull_request" ->
      nth_error (split (Go.getCurrentBranchName env) slash) 2 = Some b).
Proof.
  intros Hts. split; intros Hev.
  - unfold TS.getCurrentBranchName, TS.ghEnv in Hts. rewrite Hev in Hts.
    simpl in Hts.
    unfold Go.getCurrentBranchName, Go.Getenv, Go.githubEventName,
      Go.githubHeadRef.
    rewrite Hev. simpl.
    destruct (env "GITHUB_HEAD_REF") as [h|]; try discriminate.
    simpl in Hts. destruct (String.eqb h ""); congruence.
  - unfold TS.getCurrentBranchName, TS.ghEnv in Hts.
    rewrite (strict_eq_false _ _ Hev) in Hts.
    unfold Go.getCurrentBranchName.
    rewrite (go_event_not_pull_request _ Hev).
    unfold Go.Getenv, Go.githubRef.
    destruct (env "GITHUB_REF") as [ref|]; try discriminate.
    destruct (nth_error (split ref slash) 2) as [seg|]; try discriminate.
    simpl in Hts. destruct (String.eqb seg ""); congruence.
Qed.

Lemma branch_resolvers_agree_witness :
  Go.getCurrentBranchName (Fixture.pull_request_from "feature-x")
    = "feature-x"
  /\ nth_error
       (split (Go.getCurrentBranchName (Fixture.push_to "refs/heads/main"))
          slash) 2
     = Some "main".
Proof.
  split.
  - apply (proj1 (branch_resolvers_agree
                    (Fixture.pull_request_from "feature-x") "feature-x"
                    eq_refl)).
    reflexivity.
  - apply (proj2 (branch_resolvers_agree
                    (Fixture.push_to "refs/heads/main") "main" eq_refl)).
    discriminate.
Defined.

(** ** The Go action: inputs, output file, main *)

Lemma string_app_assoc (a b c : string) :
  ((a ++ b) ++ c = a ++ b ++ c)%string.
Proof. induction a as [|x a IH]; simpl; congruence. Qed.

Lemma contents_write_file fs path content :
  Go.contents (Go.write_file fs path content) path = content.
Proof. unfold Go.contents, Go.write_file. now rewrite String.eqb_refl. Qed.

Lemma write_file_other fs path content p :
  p <> path -> Go.write_file fs path content p = fs p.
Proof.
  intros H. unfold Go.write_file.
  apply String.eqb_neq in H. now rewrite H.
Qed.

Lemma setOutput_untouched os env name value fs p :
  p <> Go.Getenv env Go.githubOutput ->
  snd (Go.setOutput os env name value fs) p = fs p.
Proof.
  intros H. unfold Go.setOutput.
  destruct (Go.open_error os _); trivial.
  destruct (Go.write_error os _ _); simpl; now apply write_file_other.
Qed.

(** X10.  [setOutput] only appends: after two outputs written in a row,
    the output file holds what it held before followed by the two
    [name=value] lines in the order written, and no other file has
    changed. *)
Theorem go_setOutput_appends_in_order
    (os : Go.OS) (env : Env) (name1 value1 name2 value2 : string)
    (fs : Go.Files) :
  Go.open_error os (Go.Getenv env Go.githubOutput) = None ->
  Go.write_error os (Go.Getenv env Go.githubOutput)
    (name1 ++ "=" ++ value1 ++ Go.newline) = None ->
  Go.write_error os (Go.Getenv env Go.githubOutput)
    (name2 ++ "=" ++ value2 ++ Go.newline) = None ->
  fst (Go.setOutput os env name1 value1 fs) = Ok tt
  /\ fst (Go.setOutput os env name2 value2
            (snd (Go.setOutput os env name1 value1 fs))) = Ok tt
  /\ Go.contents
       (snd (Go.setOutput os env name2 value2
               (snd (Go.setOutput os env name1 value1 fs))))
       (Go.Getenv env Go.githubOutput)
     = (Go.contents fs (Go.Getenv env Go.githubOutput)
        ++ (name1 ++ "=" ++ value1 ++ Go.newline)
        ++ (name2 ++ "=" ++ value2 ++ Go.newline))%string
  /\ forall p,
      p <> Go.Getenv env Go.githubOutput ->
      snd (Go.setOutput os env name2 value2
             (snd (Go.setOutput os env name1 value1 fs))) p
      = fs p.
Proof.
  intros Hopen Hw1 Hw2.
  assert (H1 : Go.setOutput os env name1 value1 fs
               = (Ok tt,
                  Go.write_file fs (Go.Getenv env Go.githubOutput)
                    (Go.contents fs (Go.Getenv env Go.githubOutput)
                     ++ (name1 ++ "=" ++ value1 ++ Go.newline))%string)).
  { unfold Go.setOutput. cbv zeta. now rewrite Hopen, Hw1. }
  rewrite H1. cbn [fst snd].
  assert (H2 : forall fs',
             Go.setOutput os env name2 value2 fs'
             = (Ok tt,
                Go.write_file fs' (Go.Getenv env Go.githubOutput)
                  (Go.contents fs' (Go.Getenv env Go.githubOutput)
                   ++ (name2 ++ "=" ++ value2 ++ Go.newline))%string)).
  { intros fs'. unfold Go.setOutput. cbv zeta. now rewrite Hopen, Hw2. }
  rewrite H2. cbn [fst snd].
  split; [reflexivity|]. split; [reflexivity|]. split.
  - rewrite !contents_write_file. apply string_app_assoc.
  - intros p Hp. now rewrite !write_file_other.
Qed.

Lemma go_setOutput_appends_in_order_witness :
  Go.contents
    (snd (Go.setOutput Fixture.plain_os (Fixture.go_env None None)
            "paths" "src"
            (snd (Go.setOutput Fixture.plain_os (Fixture.go_env None None)
                    "sha" "b2b2b2" Fixture.one_record))))
    "/tmp/output"
  = ("other=1" ++ ("sha" ++ "=" ++ "b2b2b2" ++ Go.newline)
     ++ ("paths" ++ "=" ++ "src" ++ Go.newline))%string.
Proof.
  apply (go_setOutput_appends_in_order Fixture.plain_os
           (Fixture.go_env None None) "sha" "b2b2b2" "paths" "src"
           Fixture.one_record eq_refl eq_refl eq_refl).
Defined.

Lemma go_getInput_ok ToUpper TrimSpace env name required v :
  Go.getInput ToUpper TrimSpace env name required = Ok v ->
  v = Go.Getenv env (Go.input_key ToUpper name).
Proof.
  unfold Go.getInput. cbv zeta.
  destruct (required && String.eqb _ ""); congruence.
Qed.

Lemma go_getInput_blank ToUpper TrimSpace env name :
  TrimSpace (Go.Getenv env (Go.input_key ToUpper name)) = "" ->
  Go.getInput ToUpper TrimSpace env name true
  = Raised ("Input required and not supplied: " ++ name)%string.
Proof. intros H. unfold Go.getInput. cbv zeta. now rewrite H. Qed.

Lemma go_getInput_supplied ToUpper TrimSpace env name :
  TrimSpace (Go.Getenv env (Go.input_key ToUpper name)) <> "" ->
  Go.getInput ToUpper TrimSpace env name true
  = Ok (Go.Getenv env (Go.input_key ToUpper name)).
Proof.
  intros H. unfold Go.getInput. cbv zeta.
  apply String.eqb_neq in H. now rewrite H.
Qed.

(** X11.  The Go action needs both inputs: when the [paths] input or the
    [job] input is blank after trimming, [main] panics with the name of
    the first such input ([paths] before [job]), makes no request and
    changes no file.  In particular an empty job name never selects a
    job-less mode. *)
Theorem go_main_requires_both_inputs
    (ToUpper TrimSpace : string -> string) (os : Go.OS) (env : Env)
    (ghClient : Provider) (fs : Go.Files) :
  TrimSpace (Go.Getenv env (Go.input_key ToUpper "paths")) = ""
  \/ TrimSpace (Go.Getenv env (Go.input_key ToUpper "job")) = "" ->
  Go.main ToUpper TrimSpace os env ghClient fs
  = (Raised
       (Go.InputPanic
          ("Input required and not supplied: "
           ++ (if String.eqb
                    (TrimSpace (Go.Getenv env (Go.input_key ToUpper "paths")))
                    ""
               then "paths" else "job"))),
     [], fs).
Proof.
  intros H. unfold Go.main.
  destruct (String.eqb
              (TrimSpace (Go.Getenv env (Go.input_key ToUpper "paths"))) "")
    eqn:Hp.
  - apply String.eqb_eq in Hp. now rewrite (go_getInput_blank _ _ _ _ Hp).
  - apply String.eqb_neq in Hp.
    rewrite (go_getInput_supplied _ _ _ _ Hp).
    destruct H as [H|H]; [contradiction|].
    now rewrite (go_getInput_blank _ _ _ _ H).
Qed.

Lemma go_main_requires_both_inputs_witness :
  Go.main Fixture.to_upper Fixture.trim Fixture.plain_os
    (Fixture.go_env (Some "src") (Some "  ")) Fixture.never_green
    Fixture.one_record
  = (Raised (Go.InputPanic "Input required and not supplied: job"),
     [], Fixture.one_record).
Proof.
  apply (go_main_requires_both_inputs Fixture.to_upper Fixture.trim
           Fixture.plain_os (Fixture.go_env (Some "src") (Some "  "))
           Fixture.never_green Fixture.one_record).
  right. reflexivity.
Defined.

(** X12.  Whatever a run of the Go [main] does, it changes no file other
    than the one named by [GITHUB_OUTPUT]; when it ends normally, the
    resolver returned a hash for the raw [job] input and the output file
    holds its former content followed by the line [sha=<hash>]; when it
    dies of an input or resolver panic, no file has changed at all. *)
Theorem go_main_writes_only_the_resolved_hash
    (ToUpper TrimSpace : string -> string) (os : Go.OS) (env : Env)
    (ghClient : Provider) (fs fs' : Go.Files)
    (res : outcome Go.Crash unit) (log : list Call) :
  Go.main ToUpper TrimSpace os env ghClient fs = (res, log, fs') ->
  (forall path, path <> Go.Getenv env Go.githubOutput -> fs' path = fs path)
  /\ (res = Ok tt ->
      exists sha,
        run (Go.getLastSuccessfulWorkflowRunCommit env ghClient
               (Go.Getenv env (Go.input_key ToUpper "job")))
        = (Ok sha, log)
        /\ Go.contents fs' (Go.Getenv env Go.githubOutput)
           = (Go.contents fs (Go.Getenv env Go.githubOutput)
              ++ "sha" ++ "=" ++ sha ++ Go.newline)%string)
  /\ (forall c,
      res = Raised c ->
      (forall err, c <> Go.OutputPanic err) ->
      forall path, fs' path = fs path).
Proof.
  unfold Go.main.
  destruct (Go.getInput ToUpper TrimSpace env "paths" true) as [input|m1].
  2:{ intros [= <- <- <-]. repeat split; trivial; discriminate. }
  destruct (Go.getInput ToUpper TrimSpace env "job" true) as [job|m2] eqn:Hjob.
  2:{ intros [= <- <- <-]. repeat split; trivial; discriminate. }
  apply go_getInput_ok in Hjob. subst job.
  destruct (run (Go.getLastSuccessfulWorkflowRunCommit env ghClient _))
    as [[sha|p] log0] eqn:Hrun.
  2:{ intros [= <- <- <-]. repeat split; trivial; discriminate. }
  pose proof (setOutput_untouched os env "sha" sha fs) as Hother.
  unfold Go.setOutput in *. cbv zeta in *.
  destruct (Go.open_error os (Go.Getenv env Go.githubOutput)) as [err|].
  { intros [= <- <- <-]. split; [trivial|]. split; [discriminate|].
    intros c [= <-] Hc. now elim (Hc err). }
  destruct (Go.write_error os (Go.Getenv env Go.githubOutput) _) as [err|].
  { intros [= <- <- <-]. split; [exact Hother|]. split; [discriminate|].
    intros c [= <-] Hc. now elim (Hc err). }
  intros [= <- <- <-]. split; [exact Hother|]. split.
  - intros _. exists sha. split; trivial.
    now rewrite contents_write_file.
  - discriminate.
Qed.

Lemma go_main_writes_only_the_resolved_hash_witness :
  (forall path,
      path <> Go.Getenv (Fixture.go_env (Some "src") (Some "build"))
                Go.githubOutput ->
      Go.write_file Fixture.one_record "/tmp/output"
        ("other=1" ++ "sha" ++ "=" ++ "b2b2b2" ++ Go.newline)%string path
      = Fixture.one_record path)
  /\ exists sha,
      run (Go.getLastSuccessfulWorkflowRunCommit
             (Fixture.go_env (Some "src") (Some "build"))
             (Fixture.client (Data [Fixture.R3; Fixture.R2; Fixture.R1])
                Fixture.jobs_321)
             "build")
      = (Ok sha,
         [ListWorkflowRuns (Go.runs_query "octo" "demo");
          ListJobs "octo" "demo" 3; ListJobs "octo" "demo" 2])
      /\ Go.contents
           (Go.write_file Fixture.one_record "/tmp/output"
              ("other=1" ++ "sha" ++ "=" ++ "b2b2b2" ++ Go.newline)%string)
           "/tmp/output"
         = ("other=1" ++ "sha" ++ "=" ++ sha ++ Go.newline)%string.
Proof.
  destruct (go_main_writes_only_the_resolved_hash
              Fixture.to_upper Fixture.trim Fixture.plain_os
              (Fixture.go_env (Some "src") (Some "build"))
              (Fixture.client (Data [Fixture.R3; Fixture.R2; Fixture.R1])
                 Fixture.jobs_321)
              Fixture.one_record
              (Go.write_file Fixture.one_record "/tmp/output"
                 ("other=1" ++ "sha" ++ "=" ++ "b2b2b2" ++ Go.newline)%string)
              (Ok tt)
              [ListWorkflowRuns (Go.runs_query "octo" "demo");
               ListJobs "octo" "demo" 3; ListJobs "octo" "demo" 2]
              eq_refl) as (Hother & Hok & _).
  split; [exact Hother | exact (Hok eq_refl)].
Defined.

(** ** The TypeScript action: main *)

(** X13.  With a job name supplied, a token and a resolvable branch, the
    TypeScript [main] runs Mode B on the client made from the token: its
    requests are those of [handleJobSha], it sets the single output [sha]
    to the hash returned, and sets no output when the resolution raises. *)
Theorem ts_main_with_a_job_name
    (getInput : string -> bool -> outcome TS.JsError string)
    (getOctokit : string -> Provider) (env : Env)
    (jobName token owner repo branch : string) :
  getInput "job" false = Ok jobName ->
  jobName <> "" ->
  getInput "token" true = Ok token ->
  TS.getCurrentBranchName env = Ok branch ->
  TS.main getInput getOctokit (owner, repo) env
  = match run (TS.handleJobSha (getOctokit token) owner repo branch jobName)
    with
    | (Ok sha, log) => (Ok tt, log, [("sha", sha)])
    | (Raised e, log) => (Raised e, log, [])
    end.
Proof.
  intros Hjob Hne Htoken Hbranch.
  unfold TS.main.
  assert (Hsha : run (TS.getSha getInput getOctokit (owner, repo) env)
                 = run (TS.handleJobSha (getOctokit token) owner repo branch
                          jobName)).
  { unfold run, TS.getSha, bind, lift.
    rewrite Hjob, Htoken, Hbranch.
    apply String.eqb_neq in Hne. now rewrite Hne. }
  now rewrite Hsha.
Qed.

Lemma ts_main_with_a_job_name_witness :
  TS.main (Fixture.inputs "build")
    (fun _ => Fixture.client (Data [Fixture.R3; Fixture.R2; Fixture.R1])
                Fixture.jobs_321)
    ("octo", "demo") (Fixture.push_to "refs/heads/main")
  = (Ok tt,
     [ListWorkflowRuns (TS.jobs_query "octo" "demo" "main");
      ListJobs "octo" "demo" 3; ListJobs "octo" "demo" 2],
     [("sha", "b2b2b2")]).
Proof.
  apply (ts_main_with_a_job_name (Fixture.inputs "build")
           (fun _ => Fixture.client
                       (Data [Fixture.R3; Fixture.R2; Fixture.R1])
                       Fixture.jobs_321)
           (Fixture.push_to "refs/heads/main")
           "build" "t0ken" "octo" "demo" "main").
  - reflexivity.
  - discriminate.
  - reflexivity.
  - reflexivity.
Defined.

(** X14.  Configuration errors come before any request: when the token
    input is rejected, or when the branch cannot be resolved, the
    TypeScript [main] raises that error, makes no provider request and
    sets no output, with or without a job name.  The token is read before
    the branch is resolved. *)
Theorem ts_main_configuration_errors_make_no_request
    (getInput : string -> bool -> outcome TS.JsError string)
    (getOctokit : string -> Provider) (context_repo : string * string)
    (env : Env) (jobName : string) :
  getInput "job" false = Ok jobName ->
  (forall e,
      getInput "token" true = Raised e ->
      TS.main getInput getOctokit context_repo env = (Raised e, [], []))
  /\ (forall token e,
      getInput "token" true = Ok token ->
      TS.getCurrentBranchName env = Raised e ->
      TS.main getInput getOctokit context_repo env = (Raised e, [], [])).
Proof.
  intros Hjob. split.
  - intros e Htoken. unfold TS.main, run, TS.getSha, bind, lift.
    now rewrite Hjob, Htoken.
  - intros token e Htoken Hbranch.
    unfold TS.main, run, TS.getSha, bind, lift.
    rewrite Hjob, Htoken. destruct context_repo as [owner repo].
    now rewrite Hbranch.
Qed.

Lemma ts_main_configuration_errors_make_no_request_witness :
  TS.main Fixture.inputs_without_token (fun _ => Fixture.never_green)
    ("octo", "demo") (Fixture.push_to "refs/heads/main")
    = (Raised (TS.Error "Input required and not supplied: token"), [], [])
  /\ TS.main (Fixture.inputs "build") (fun _ => Fixture.never_green)
       ("octo", "demo") (Fixture.push_to "refs/heads")
     = (Raised (TS.Error "Could not get branch name from GITHUB_REF"),
        [], []).
Proof.
  split.
  - apply (proj1 (ts_main_configuration_errors_make_no_request
                    Fixture.inputs_without_token
                    (fun _ => Fixture.never_green) ("octo", "demo")
                    (Fixture.push_to "refs/heads/main") "build" eq_refl)).
    reflexivity.
  - apply (proj2 (ts_main_configuration_errors_make_no_request
                    (Fixture.inputs "build")
                    (fun _ => Fixture.never_green) ("octo", "demo")
                    (Fixture.push_to "refs/heads") "build" eq_refl)
             "t0ken").
    + reflexivity.
    + reflexivity.
Defined.

(** ** One page of runs *)






(** ** The Go input reader *)

Lemma ReplaceAll_removes s old new :
  old <> new -> has_char old (Go.ReplaceAll s old new) = false.
Proof.
  intros Hne. induction s as [|c s IH]; simpl; trivial.
  rewrite IH, orb_false_r.
  destruct (Ascii.eqb c old) eqn:Hc.
  - now apply Ascii.eqb_neq.
  - now rewrite Ascii.eqb_sym.
Qed.

(** X16.  The Go input reader looks up a key that starts with [INPUT_]
    and holds no space after that prefix; it returns the raw value of that
    variable, untrimmed, and panics only for a required input whose
    trimmed value is empty; an optional input never panics. *)
Theorem go_getInput_reads_the_raw_variable
    (ToUpper TrimSpace : string -> string) (env : Env)
    (inputName : string) (required : bool) :
  (exists rest,
      Go.input_key ToUpper inputName = ("INPUT_" ++ rest)%string
      /\ has_char " "%char rest = false)
  /\ Go.getInput ToUpper TrimSpace env inputName false
     = Ok (Go.Getenv env (Go.input_key ToUpper inputName))
  /\ (forall v,
      Go.getInput ToUpper TrimSpace env inputName required = Ok v ->
      v = Go.Getenv env (Go.input_key ToUpper inputName))
  /\ (forall message,
      Go.getInput ToUpper TrimSpace env inputName required = Raised message ->
      required = true
      /\ TrimSpace (Go.Getenv env (Go.input_key ToUpper inputName)) = ""
      /\ message = ("Input required and not supplied: " ++ inputName)%string).
Proof.
  split; [|split; [|split]].
  - eexists. split; [reflexivity|].
    apply ReplaceAll_removes. discriminate.
  - reflexivity.
  - apply go_getInput_ok.
  - intros message. unfold Go.getInput. cbv zeta.
    destruct required; simpl; try discriminate.
    destruct (String.eqb _ "") eqn:Hb; try discriminate.
    intros [= <-]. apply String.eqb_eq in Hb. auto.
Qed.

Lemma go_getInput_reads_the_raw_variable_witness :
  "  build " = Go.Getenv (Fixture.go_env (Some "src") (Some "  build "))
                 (Go.input_key Fixture.to_upper "job")
  /\ Go.getInput Fixture.to_upper Fixture.trim
       (Fixture.go_env None (Some "build")) "paths" false
     = Ok "".
Proof.
  split.
  - apply (proj1 (proj2 (proj2 (go_getInput_reads_the_raw_variable
                                  Fixture.to_upper Fixture.trim
                                  (Fixture.go_env (Some "src")
                                     (Some "  build "))
                                  "job" true)))).
    reflexivity.
  - apply (go_getInput_reads_the_raw_variable
             Fixture.to_upper Fixture.trim
             (Fixture.go_env None (Some "build")) "paths" false).
Defined.
